(** * slack_notifier: the notifier of [src/slack_notifier/notifier.py]

    A shallow embedding of the [SlackNotifier] class.  Python integers are
    [Z]; Python floats are IEEE binary64 values, computed with the
    reference operations of [SpecFloat]; a method is a computation over the
    object and its surroundings that either returns or raises. *)

From Stdlib Require Import ZArith List String Ascii Bool Lia.
From Stdlib Require Import Sorting.Sorted Sorting.Permutation.
From Stdlib Require Import RelationClasses.
From Stdlib Require Import Floats.SpecFloat.
From Stdlib Require Import DecimalString DecimalPos.
Import ListNotations.

Local Open Scope string_scope.
Local Open Scope Z_scope.

(** ** Exceptions and results *)

(** The exceptions the modelled code can meet.  [RequestException] stands
    for any exception raised by [requests.post]; each carries its text;
    [HTTPError] is the one raised by [Response.raise_for_status]; [OSError]
    stands for what opening a file raises. *)
Inductive exn : Type :=
| ZeroDivisionError
| OverflowError (msg : string)
| ValueError (msg : string)
| AttributeError (msg : string)
| JSONDecodeError (msg : string)
| RequestException (msg : string)
| HTTPError (msg : string)
| OSError (msg : string)
| TypeError (msg : string).

Inductive result (A : Type) : Type :=
| Return (a : A)
| Raise (e : exn).

Arguments Return {A} a.
Arguments Raise {A} e.

(** [str(e)] *)
Definition exn_str (e : exn) : string :=
  match e with
  | ZeroDivisionError => "division by zero"
  | OverflowError msg | ValueError msg | AttributeError msg
  | JSONDecodeError msg | RequestException msg | HTTPError msg
  | OSError msg | TypeError msg => msg
  end.

(** ** Python floats *)

Module PyFloat.

Definition float := spec_float.

Definition prec : Z := 53.
Definition emax : Z := 1024.

(** [float(n)] for an integer [n]: the nearest binary64 value, ties to
    even; an integer beyond the range raises. *)
Definition of_int (n : Z) : result float :=
  match binary_normalize prec emax n 0 false with
  | S754_infinity _ => Raise (OverflowError "int too large to convert to float")
  | f => Return f
  end.

(** [a / b] on two integers.  CPython's [long_true_divide] returns the
    binary64 value nearest to the exact quotient (ties to even), raises
    [ZeroDivisionError] when [b] is zero and [OverflowError] when the
    quotient is out of range. *)
Definition truediv_int (a b : Z) : result float :=
  if b =? 0 then Raise ZeroDivisionError
  else if a =? 0 then Return (S754_zero (b <? 0))
  else
    let '(q, e, l) := SFdiv_core_binary prec emax (Z.abs a) 0 (Z.abs b) 0 in
    match binary_round_aux prec emax (xorb (a <? 0) (b <? 0)) q e l with
    | S754_infinity _ =>
        Raise (OverflowError "integer division result too large for a float")
    | f => Return f
    end.

(** [x * y] on two floats: never raises, overflows to an infinity. *)
Definition mul (x y : float) : float := SFmul prec emax x y.

(** [x / y] on two floats: raises on a zero divisor. *)
Definition div (x y : float) : result float :=
  match y with
  | S754_zero _ => Raise ZeroDivisionError
  | _ => Return (SFdiv prec emax x y)
  end.

(** The three-way comparison of a float with an integer.  Python compares
    the two exactly, without rounding the integer to a float. *)
Definition compare_int (x : float) (n : Z) : option comparison :=
  match x with
  | S754_nan => None
  | S754_infinity s => Some (if s then Lt else Gt)
  | S754_zero _ => Some (0 ?= n)
  | S754_finite s m e =>
      let v := cond_Zopp s (Zpos m) in
      match e with
      | Zneg p => Some (v ?= n * 2 ^ Zpos p)
      | _ => Some (v * 2 ^ e ?= n)
      end
  end.

(** [x >= n] *)
Definition ge_int (x : float) (n : Z) : bool :=
  match compare_int x n with
  | Some (Gt | Eq) => true
  | _ => false
  end.

(** [x > n] *)
Definition gt_int (x : float) (n : Z) : bool :=
  match compare_int x n with
  | Some Gt => true
  | _ => false
  end.

(** The float constants the code writes as integer literals. *)
Definition f100 : float := Eval vm_compute in binary_normalize prec emax 100 0 false.
Definition f3600 : float := Eval vm_compute in binary_normalize prec emax 3600 0 false.
Definition one : float := Eval vm_compute in binary_normalize prec emax 1 0 false.

End PyFloat.


(** ** Python strings and built-ins *)

Module Py.

(** [s.split(sep)] for a one-character separator: always at least one
    piece, empty pieces kept. *)
Fixpoint split (sep : ascii) (s : string) : list string :=
  match s with
  | EmptyString => [EmptyString]
  | String c rest =>
      if Ascii.eqb c sep then EmptyString :: split sep rest
      else
        match split sep rest with
        | [] => [String c EmptyString]
        | piece :: pieces => String c piece :: pieces
        end
  end.

(** The white space [int] skips around an ASCII literal: codes 9 to 13
    and the space. *)
Definition is_space (c : ascii) : bool :=
  let n := nat_of_ascii c in
  ((9 <=? n) && (n <=? 13) || (n =? 32))%nat.

Definition is_digit (c : ascii) : bool :=
  let n := nat_of_ascii c in ((48 <=? n) && (n <=? 57))%nat.

Definition digit_value (c : ascii) : Z := Z.of_nat (nat_of_ascii c) - 48.

Fixpoint lstrip (l : list ascii) : list ascii :=
  match l with
  | c :: rest => if is_space c then lstrip rest else l
  | [] => []
  end.

(** [s.strip()] on the characters of [s] *)
Definition strip (l : list ascii) : list ascii :=
  rev (lstrip (rev (lstrip l))).

(** The digits of a decimal literal: single underscores are allowed
    between digits only.  [sep] tells that the previous character was not
    a digit. *)
Fixpoint digits (acc : Z) (sep : bool) (l : list ascii) : option Z :=
  match l with
  | [] => if sep then None else Some acc
  | c :: rest =>
      if is_digit c then digits (10 * acc + digit_value c) false rest
      else if Ascii.eqb c "_"%char && negb sep then digits acc true rest
      else None
  end.

(** The decimal text of an integer: what [str(n)] gives when it returns. *)
Definition str (n : Z) : string := NilZero.string_of_int (Z.to_int n).

(** The interpreter's limit on the digits of an integer that is read or
    printed in base 10, [sys.int_max_str_digits], at its default. *)
Definition int_max_str_digits : Z := 4300.

(** The number of decimal digits of [n] *)
Definition decimal_digits (n : Z) : Z := Z.of_nat (String.length (str (Z.abs n))).

(** [str(n)], and [n] inside an f-string, as the interpreter runs it: an
    integer of more digits than the limit raises. *)
Definition str_int (n : Z) : result string :=
  if int_max_str_digits <? decimal_digits n
  then Raise (ValueError "Exceeds the limit (4300 digits) for integer string conversion; use sys.set_int_max_str_digits() to increase the limit")
  else Return (str n).

Definition is_ascii (s : string) : bool :=
  forallb (fun c => (nat_of_ascii c <? 128)%nat) (list_ascii_of_string s).

(** The longest prefix of digits and underscores, and what follows it *)
Fixpoint literal_run (l : list ascii) : list ascii * list ascii :=
  match l with
  | c :: rest =>
      if is_digit c || Ascii.eqb c "_"%char
      then let '(run, tail) := literal_run rest in (c :: run, tail)
      else ([], l)
  | [] => ([], [])
  end.

Definition count_digits (l : list ascii) : Z :=
  Z.of_nat (List.length (filter is_digit l)).

(** [int(s)] in base 10 on a string.  On ASCII text: white space around,
    an optional sign, then the digits, which may not be more than the
    limit, and nothing else.  On text with characters outside ASCII, where
    [int] also takes the decimal digits and the spaces of other scripts, the
    outcome is left to [non_ascii], [None] standing for [ValueError].  The
    message of an invalid literal quotes the text as it is, where the
    interpreter shows its [repr], cut at 200 characters. *)
Definition int (non_ascii : string -> option Z) (s : string) : result Z :=
  let invalid :=
    Raise (ValueError ("invalid literal for int() with base 10: '" ++ s ++ "'")) in
  let body sign l :=
    let '(run, tail) := literal_run l in
    match digits 0 true run with
    | None => invalid
    | Some n =>
        if int_max_str_digits <? count_digits run then
          Raise (ValueError ("Exceeds the limit (4300 digits) for integer string conversion: value has "
                             ++ str (count_digits run)
                             ++ " digits; use sys.set_int_max_str_digits() to increase the limit"))
        else
          match tail with
          | [] => Return (sign * n)
          | _ => invalid
          end
    end in
  if is_ascii s then
    match strip (list_ascii_of_string s) with
    | "-"%char :: l => body (-1) l
    | "+"%char :: l => body 1 l
    | l => body 1 l
    end
  else
    match non_ascii s with
    | Some n => Return n
    | None => invalid
    end.

(** [sep.join(pieces)] *)
Fixpoint join (sep : string) (pieces : list string) : string :=
  match pieces with
  | [] => ""
  | [piece] => piece
  | piece :: rest => piece ++ sep ++ join sep rest
  end.

Fixpoint insert_sorted (x : Z) (l : list Z) : list Z :=
  match l with
  | [] => [x]
  | y :: rest => if x <? y then x :: l else y :: insert_sorted x rest
  end.

(** [sorted(l)] on integers: ascending, equal elements all kept. *)
Fixpoint sorted (l : list Z) : list Z :=
  match l with
  | [] => []
  | x :: rest => insert_sorted x (sorted rest)
  end.

(** The list of [f x] for [x] in [l], stopping at the first [f x] that
    raises: a list comprehension whose element expression can raise. *)
Fixpoint comprehension {A B : Type} (f : A -> result B) (l : list A)
  : result (list B) :=
  match l with
  | [] => Return []
  | x :: rest =>
      match f x with
      | Raise e => Raise e
      | Return y =>
          match comprehension f rest with
          | Raise e => Raise e
          | Return ys => Return (y :: ys)
          end
      end
  end.

(** [range(0, stop, step)] for a positive [step], as offsets into a list *)
Fixpoint range_from (fuel : nat) (i stop step : nat) : list nat :=
  match fuel with
  | O => []
  | S fuel' =>
      if (i <? stop)%nat then i :: range_from fuel' (i + step) stop step
      else []
  end.

Definition range (stop step : nat) : list nat := range_from stop 0 stop step.

(** [l[i:j]] for [0 <= i <= j] *)
Definition slice {A : Type} (l : list A) (i j : nat) : list A :=
  firstn (j - i) (skipn i l).

(** [l.append(x)] and a run of appends, as values *)
Definition append {A : Type} (l : list A) (x : A) : list A := app l [x].
Definition extend {A : Type} (l xs : list A) : list A := app l xs.

(** Truth value of an optional string: [None] and [""] are false. *)
Definition truthy (o : option string) : bool :=
  match o with
  | Some s => negb (s =? "")%string
  | None => false
  end.

(** [a or b] on optional strings *)
Definition or (a b : option string) : option string :=
  if truthy a then a else b.

End Py.

(** ** Data model *)

Inductive NotificationLevel : Type := SUCCESS | WARNING | ERROR | INFO | DEBUG.

(** [level.value] *)
Definition level_value (level : NotificationLevel) : string :=
  match level with
  | SUCCESS => "✅"
  | WARNING => "⚠️"
  | ERROR => "❌"
  | INFO => "ℹ️"
  | DEBUG => "🔍"
  end.

(** [level.name] *)
Definition level_name (level : NotificationLevel) : string :=
  match level with
  | SUCCESS => "SUCCESS"
  | WARNING => "WARNING"
  | ERROR => "ERROR"
  | INFO => "INFO"
  | DEBUG => "DEBUG"
  end.

(** A dict is the list of its items in insertion order.  A value of the
    [fields] dict is either a nested dict or anything else, kept as the
    text [str] gives for it. *)
Definition dict (V : Type) : Type := list (string * V).

Inductive field_value : Type :=
| Text (s : string)
| Nested (d : dict string).

(** What callers pass as [fields_code_block]: a dict, or a string that the
    Slack path tries to read as JSON. *)
Inductive code_block_arg : Type :=
| CodeDict (d : dict string)
| CodeStr (s : string).

(** Slack text objects and blocks, as the dict literals of
    [_create_message_blocks] build them. *)
Inductive text_object : Type :=
| plain_text (text : string)
| mrkdwn (text : string).

Inductive block : Type :=
| header (text : text_object)
| section_text (text : text_object)
| section_fields (fields : list text_object)
| context (elements : list text_object).

(** A [datetime], in microseconds: naive, as [datetime.now()] gives it,
    or aware of a time zone. *)
Inductive datetime : Type :=
| Naive (microseconds : Z)
| Aware (microseconds : Z) (utcoffset : Z).

Coercion Naive : Z >-> datetime.

(** The instance attributes of a [SlackNotifier]. *)
Record SlackNotifier : Type := mkSlackNotifier {
  webhook_url : option string;
  use_logging : bool;
  system_name : string;
  notification_log_path : string;
  notification_percentages : list Z;
  last_notification_pct : Z;
  start_time : datetime;
  total_files : Z;
  processed_files : Z;
  error_files : Z
}.

(** What happens on the process-wide logger named [notifications]: a
    handler is attached for a file, or a handler writes a record, with its
    level name and text, to its file. *)
Inductive log_event : Type :=
| Attached (path : string)
| Wrote (path levelname text : string).

(** The files of the handlers attached so far, one per attachment *)
Fixpoint handlers (log : list log_event) : list string :=
  match log with
  | [] => []
  | Attached path :: rest => path :: handlers rest
  | Wrote _ _ _ :: rest => handlers rest
  end.

(** What surrounds the object: the clock, what happened on the
    notification logger (it passes INFO and above), the messages sent to
    the root logger, and the requests handed to [requests.post], oldest
    first. *)
Record World : Type := mkWorld {
  now : Z;
  notification_log : list log_event;
  root_log : list string;
  posted : list (option string * list block)
}.

(** The response of the webhook, as far as the code looks at it. *)
Record Response : Type := mkResponse {
  status_code : Z;
  reason : string;
  url : string
}.

(** What [json.loads] can give: a JSON object, here the dict of its items
    with values as text, or any other JSON value, of which the name of its
    Python type is kept. *)
Inductive json_value : Type :=
| JsonObject (d : dict string)
| JsonOther (type_name : string).

(** The library functions the notifier calls and the model leaves open:
    [requests.post] (the transport), [json.loads], [format(x, ".nf")] on a
    float, and [strftime('%Y-%m-%d %H:%M:%S')]. *)
Record Runtime : Type := mkRuntime {
  requests_post : option string -> list block -> result Response;
  json_loads : string -> result json_value;
  format_float : nat -> PyFloat.float -> string;
  strftime : Z -> string
}.

(** [Response.raise_for_status] of the requests library: it raises for the
    client and server error statuses, 400 to 599, and for no other. *)
Definition raise_for_status (r : Response) : result unit :=
  let text kind :=
    Py.str (status_code r) ++ kind ++ reason r ++ " for url: " ++ url r in
  if (400 <=? status_code r) && (status_code r <? 500)
  then Raise (HTTPError (text " Client Error: "))
  else if (500 <=? status_code r) && (status_code r <? 600)
  then Raise (HTTPError (text " Server Error: "))
  else Return tt.

(** ** Methods as computations *)

(** A method runs on the object and the world; it returns or raises, and
    what it changed before raising stays changed. *)
Definition state : Type := (SlackNotifier * World)%type.
Definition M (A : Type) : Type := state -> result A * state.

Definition ret {A : Type} (a : A) : M A := fun st => (Return a, st).

Definition raise {A : Type} (e : exn) : M A := fun st => (Raise e, st).

Definition bind {A B : Type} (m : M A) (k : A -> M B) : M B :=
  fun st =>
    match m st with
    | (Return a, st') => k a st'
    | (Raise e, st') => (Raise e, st')
    end.

(** [try: body except Exception as e: handler(e)] *)
Definition try_except {A : Type} (body : M A) (handler : exn -> M A) : M A :=
  fun st =>
    match body st with
    | (Return a, st') => (Return a, st')
    | (Raise e, st') => handler e st'
    end.

Definition lift {A : Type} (r : result A) : M A := fun st => (r, st).

Definition get_self : M SlackNotifier := fun st => (Return (fst st), st).

Definition get_world : M World := fun st => (Return (snd st), st).

Definition update_self (f : SlackNotifier -> SlackNotifier) : M unit :=
  fun st => (Return tt, (f (fst st), snd st)).

Definition update_world (f : World -> World) : M unit :=
  fun st => (Return tt, (fst st, f (snd st))).

Declare Scope py_scope.
Delimit Scope py_scope with py.
Notation "x <- m ;; k" := (bind m (fun x => k))
  (at level 61, m at next level, right associativity) : py_scope.
Notation "m ;; k" := (bind m (fun _ => k))
  (at level 61, right associativity) : py_scope.
Local Open Scope py_scope.

(** [self.last_notification_pct = v] *)
Definition set_last_notification_pct (v : Z) (s : SlackNotifier) : SlackNotifier :=
  mkSlackNotifier (webhook_url s) (use_logging s) (system_name s)
    (notification_log_path s) (notification_percentages s) v
    (start_time s) (total_files s) (processed_files s) (error_files s).

(** [self.error_files = v] *)
Definition set_error_files (v : Z) (s : SlackNotifier) : SlackNotifier :=
  mkSlackNotifier (webhook_url s) (use_logging s) (system_name s)
    (notification_log_path s) (notification_percentages s)
    (last_notification_pct s) (start_time s) (total_files s)
    (processed_files s) v.

(** The driver's [notifier.processed_files = v] *)
Definition set_processed_files (v : Z) (s : SlackNotifier) : SlackNotifier :=
  mkSlackNotifier (webhook_url s) (use_logging s) (system_name s)
    (notification_log_path s) (notification_percentages s)
    (last_notification_pct s) (start_time s) (total_files s) v
    (error_files s).

(** A call on the notification logger, whose level is INFO: every handler
    attached to it, whichever notifier attached it, writes the record. *)
Definition notification_logger (levelname text : string) : M unit :=
  if (levelname =? "DEBUG")%string then ret tt
  else update_world (fun w =>
         mkWorld (now w)
           (Py.extend (notification_log w)
              (map (fun path => Wrote path levelname text)
                   (handlers (notification_log w))))
           (root_log w) (posted w)).

(** [logging.error(text)] *)
Definition logging_error (text : string) : M unit :=
  update_world (fun w =>
    mkWorld (now w) (notification_log w) (Py.append (root_log w) text) (posted w)).

Definition nl : string := String (ascii_of_nat 10) EmptyString.

(** ** Construction *)

(** The constructor's arguments and the process it runs in: the
    environment, the host name, what opening a file for appending does
    ([Raise] with the exception of [open], [OSError] or another), and what
    [int] makes of a text outside ASCII. *)
Record Config : Type := mkConfig {
  arg_notification_log_path : option string;
  arg_webhook_url : option string;
  arg_total_files : Z;
  arg_start_time : datetime;
  arg_system_name : option string;
  environ : dict string;
  hostname : string;
  open_log : string -> result unit;
  int_non_ascii : string -> option Z
}.

(** [os.getenv(name)] *)
Fixpoint getenv (env : dict string) (name : string) : option string :=
  match env with
  | [] => None
  | (key, value) :: rest =>
      if (key =? name)%string then Some value else getenv rest name
  end.

(** [os.getenv(name, default)] *)
Definition getenv_default (env : dict string) (name default : string) : string :=
  match getenv env name with
  | Some value => value
  | None => default
  end.

(** [notification_log_path or "notifications.log"] *)
Definition resolved_log_path (c : Config) : string :=
  match Py.or (arg_notification_log_path c) (Some "notifications.log") with
  | Some path => path
  | None => "notifications.log"
  end.

(** [NotificationLogHandler(path)] and [addHandler]: the file is opened,
    which can raise, and the handler joins those of the logger. *)
Definition add_notification_handler (c : Config) (path : string) (w : World)
  : result unit * World :=
  match open_log c path with
  | Raise e => (Raise e, w)
  | Return _ =>
      (Return tt,
       mkWorld (now w) (Py.append (notification_log w) (Attached path))
         (root_log w) (posted w))
  end.

(** [SlackNotifier.__init__].  The log file is opened first; then a
    threshold entry that [int] rejects makes the constructor raise, the
    handler staying attached. *)
Definition __init__ (c : Config) (w : World) : result SlackNotifier * World :=
  let webhook_url := Py.or (arg_webhook_url c) (getenv (environ c) "SLACK_WEBHOOK_URL") in
  let use_logging := negb (Py.truthy webhook_url) in
  let system_name :=
    match arg_system_name c with
    | Some name =>
        if Py.truthy (Some name) then name
        else getenv_default (environ c) "SYSTEM_NAME" (hostname c)
    | None => getenv_default (environ c) "SYSTEM_NAME" (hostname c)
    end in
  let notification_log_path := resolved_log_path c in
  match add_notification_handler c notification_log_path w with
  | (Raise e, w) => (Raise e, w)
  | (Return _, w) =>
      let notification_pcts :=
        getenv_default (environ c) "NOTIFICATION_PERCENTAGES" "20,100" in
      match Py.comprehension (Py.int (int_non_ascii c))
              (Py.split "," notification_pcts) with
      | Raise e => (Raise e, w)
      | Return pcts =>
          let self :=
            mkSlackNotifier webhook_url use_logging system_name
              notification_log_path (Py.sorted pcts) 0
              (arg_start_time c) (arg_total_files c) 0 0 in
          if use_logging then
            (Return self,
             snd (snd (notification_logger "INFO"
                         ("SlackNotifier initialized in logging-only mode (no webhook URL provided) for system: "
                          ++ system_name) (self, w))))
          else (Return self, w)
      end
  end.

(** ** Formatting *)

(** [_format_fields_for_logging] *)
Definition _format_fields_for_logging (fields : option (dict field_value)) : string :=
  match fields with
  | None | Some [] => ""
  | Some items =>
      let line '(key, value) :=
        match value with
        | Nested d =>
            key ++ ":" ++ nl
            ++ Py.join nl (map (fun '(k, v) => "    " ++ k ++ ": " ++ v) d)
        | Text v => key ++ ": " ++ v
        end in
      nl ++ Py.join nl (map line items)
  end.

(** [_format_code_blocks_for_logging].  It iterates over [.items()], which
    a string does not have. *)
Definition _format_code_blocks_for_logging (fields_code_block : option code_block_arg)
  : result string :=
  match fields_code_block with
  | None | Some (CodeDict []) | Some (CodeStr EmptyString) => Return ""
  | Some (CodeDict items) =>
      Return (nl ++ Py.join nl (map (fun '(key, value) => key ++ ":" ++ nl ++ value) items))
  | Some (CodeStr _) =>
      Raise (AttributeError "'str' object has no attribute 'items'")
  end.

(** [_log_notification] *)
Definition _log_notification (level : NotificationLevel) (message : string)
    (title : option string) (fields : option (dict field_value))
    (fields_code_block : option code_block_arg) : M unit :=
  let full_message :=
    match title with
    | Some t => if Py.truthy title then ["=== " ++ t ++ " ==="] else []
    | None => []
    end in
  let full_message :=
    Py.append full_message
      (level_value level ++ " " ++ level_name level ++ ": " ++ message) in
  let fields_str := _format_fields_for_logging fields in
  let full_message :=
    if Py.truthy (Some fields_str)
    then Py.append full_message ("Fields:" ++ fields_str)
    else full_message in
  code_blocks_str <- lift (_format_code_blocks_for_logging fields_code_block) ;;
  let full_message :=
    if Py.truthy (Some code_blocks_str)
    then Py.append full_message ("Code Blocks:" ++ code_blocks_str)
    else full_message in
  let complete_message := Py.join nl full_message in
  match level with
  | ERROR => notification_logger "ERROR" complete_message
  | WARNING => notification_logger "WARNING" complete_message
  | DEBUG => notification_logger "DEBUG" complete_message
  | _ => notification_logger "INFO" complete_message
  end.

(** The [formatted_fields] of [_create_message_blocks] *)
Definition formatted_fields (fields : dict field_value) : list text_object :=
  map (fun '(key, value) =>
         let field_value :=
           match value with
           | Nested d => Py.join nl (map (fun '(k, v) => "• " ++ k ++ ": " ++ v) d)
           | Text v => v
           end in
         mrkdwn ("*" ++ key ++ ":*" ++ nl ++ field_value))
      fields.

(** The [field_groups] of [_create_message_blocks]:
    [[formatted_fields[i : i + 10] for i in range(0, len(formatted_fields), 10)]] *)
Definition field_groups (formatted : list text_object) : list (list text_object) :=
  map (fun i => Py.slice formatted i (i + 10)%nat)
      (Py.range (List.length formatted) 10).

(** One section per item of a code-block dict *)
Definition code_sections (d : dict string) : list block :=
  map (fun '(key, value) =>
         section_text (mrkdwn ("*" ++ key ++ ":*" ++ nl ++ "```" ++ value ++ "```")))
      d.

Section Methods.

Variable rt : Runtime.

(** [_create_message_blocks] *)
Definition _create_message_blocks (level : NotificationLevel) (message : string)
    (title : option string) (fields : option (dict field_value))
    (fields_code_block : option code_block_arg) : M (list block) :=
  let blocks :=
    match title with
    | Some t => if Py.truthy title then [header (plain_text t)] else []
    | None => []
    end in
  let blocks :=
    Py.append blocks
      (section_text (mrkdwn (level_value level ++ " *" ++ level_name level
                             ++ "*" ++ nl ++ message))) in
  let blocks :=
    match fields with
    | None | Some [] => blocks
    | Some items =>
        Py.extend blocks (map section_fields (field_groups (formatted_fields items)))
    end in
  blocks <-
    match fields_code_block with
    | None | Some (CodeDict []) | Some (CodeStr EmptyString) => ret blocks
    | Some (CodeDict d) => ret (Py.extend blocks (code_sections d))
    | Some (CodeStr text) =>
        match json_loads rt text with
        | Return (JsonObject d) => ret (Py.extend blocks (code_sections d))
        | Return (JsonOther type_name) =>
            raise (AttributeError ("'" ++ type_name
                                   ++ "' object has no attribute 'items'"))
        | Raise (JSONDecodeError _) =>
            ret (Py.append blocks (section_text (mrkdwn ("```" ++ text ++ "```"))))
        | Raise e => raise e
        end
    end ;;
  self <- get_self ;;
  w <- get_world ;;
  ret (Py.append blocks
         (context [mrkdwn ("System: " ++ system_name self ++ " | Sent at: "
                           ++ strftime rt (now w))])).

(** [_send_to_slack]: one call of [requests.post] *)
Definition _send_to_slack (blocks : list block) : M Response :=
  self <- get_self ;;
  update_world (fun w =>
    mkWorld (now w) (notification_log w) (root_log w)
      (Py.append (posted w) (webhook_url self, blocks))) ;;
  lift (requests_post rt (webhook_url self) blocks).

(** [send_notification] *)
Definition send_notification (level : NotificationLevel) (message : string)
    (title : option string) (fields : option (dict field_value))
    (fields_code_block : option code_block_arg) : M bool :=
  try_except
    (self <- get_self ;;
     if use_logging self then
       _log_notification level message title fields fields_code_block ;;
       ret true
     else
       blocks <- _create_message_blocks level message title fields fields_code_block ;;
       response <- _send_to_slack blocks ;;
       lift (raise_for_status response) ;;
       ret true)
    (fun e =>
       let error_msg := "Failed to send notification: " ++ exn_str e in
       self <- get_self ;;
       (if negb (use_logging self) then logging_error error_msg else ret tt) ;;
       ret false).

(** The loop of [should_send_notification] over the thresholds *)
Fixpoint for_notification_pct (current_pct : PyFloat.float) (pcts : list Z) : M bool :=
  match pcts with
  | [] => ret false
  | notification_pct :: rest =>
      self <- get_self ;;
      if PyFloat.ge_int current_pct notification_pct
         && (notification_pct >? last_notification_pct self)
      then
        update_self (set_last_notification_pct notification_pct) ;;
        ret true
      else for_notification_pct current_pct rest
  end.

(** [(self.processed_files / self.total_files) * 100] *)
Definition current_pct (self : SlackNotifier) : result PyFloat.float :=
  match PyFloat.truediv_int (processed_files self) (total_files self) with
  | Return ratio => Return (PyFloat.mul ratio PyFloat.f100)
  | Raise e => Raise e
  end.

(** [should_send_notification] *)
Definition should_send_notification : M bool :=
  self <- get_self ;;
  if total_files self =? 0 then ret false
  else
    pct <- lift (current_pct self) ;;
    for_notification_pct pct (notification_percentages self).

(** [send_info] and the other convenience methods *)
Definition send_info := send_notification INFO.
Definition send_success := send_notification SUCCESS.
Definition send_warning := send_notification WARNING.
Definition send_error := send_notification ERROR.
Definition send_debug := send_notification DEBUG.

(** The part of [send_progress_notification] below the gate's early
    return *)
Definition progress_summary (success : bool) : M unit :=
  (if negb success
   then update_self (fun s => set_error_files (error_files s + 1) s)
   else ret tt) ;;
  self <- get_self ;;
  w <- get_world ;;
  elapsed <-
    match start_time self with
    | Naive started => ret (now w - started)
    | Aware _ _ =>
        raise (TypeError "can't subtract offset-naive and offset-aware datetimes")
    end ;;
  seconds <- lift (PyFloat.truediv_int elapsed 1000000) ;;
  elapsed_time <- lift (PyFloat.div seconds PyFloat.f3600) ;;
  processing_rate <-
    (if PyFloat.gt_int elapsed_time 0 then
       processed <- lift (PyFloat.of_int (processed_files self)) ;;
       lift (PyFloat.div processed elapsed_time)
     else ret (S754_zero false)) ;;
  pct <- lift (current_pct self) ;;
  processed <- lift (Py.str_int (processed_files self)) ;;
  total <- lift (Py.str_int (total_files self)) ;;
  errors <- lift (Py.str_int (error_files self)) ;;
  send_info
    ("Processing Progress: " ++ format_float rt 1 pct ++ "%")
    None
    (Some [("Files Processed", Text (processed ++ " / " ++ total));
           ("Error Files", Text errors);
           ("Processing Rate", Text (format_float rt 1 processing_rate ++ " files/hour"));
           ("Elapsed Time", Text (format_float rt 2 elapsed_time ++ " hours"))])
    None ;;
  ret tt.

(** [send_progress_notification] *)
Definition send_progress_notification (success : bool) : M unit :=
  fire <- should_send_notification ;;
  if negb fire then ret tt
  else progress_summary success.

End Methods.

(** ** Drivers and observations *)

(** What one call of the gate shows to its caller.  When the gate returns
    true the threshold that fired is the one it has just stored in
    [last_notification_pct]. *)
Inductive gate_outcome : Type :=
| Fired (threshold : Z)
| Quiet
| Raised (e : exn).

Definition gate_call (st : state) : gate_outcome * state :=
  match should_send_notification st with
  | (Return true, st') => (Fired (last_notification_pct (fst st')), st')
  | (Return false, st') => (Quiet, st')
  | (Raise e, st') => (Raised e, st')
  end.

Record gate_event : Type := mkGateEvent {
  at_processed : Z;
  outcome : gate_outcome;
  last_after : Z
}.

(** The host sets [processed_files] and calls the gate, once per entry of
    the progress sequence; a call that raises leaves the host running. *)
Fixpoint drive_gate (st : state) (progress : list Z) : list gate_event :=
  match progress with
  | [] => []
  | p :: rest =>
      let '(o, st') := gate_call (set_processed_files p (fst st), snd st) in
      mkGateEvent p o (last_notification_pct (fst st')) :: drive_gate st' rest
  end.

(** The thresholds that fired, in the order of the calls *)
Fixpoint fired (events : list gate_event) : list Z :=
  match events with
  | [] => []
  | ev :: rest =>
      match outcome ev with
      | Fired t => t :: fired rest
      | _ => fired rest
      end
  end.

(** The host sets [processed_files] and calls
    [send_progress_notification], once per step; the event shows what the
    gate inside the call did. *)
Fixpoint drive_progress (rt : Runtime) (st : state) (steps : list (Z * bool))
  : list gate_event :=
  match steps with
  | [] => []
  | (p, success) :: rest =>
      let st0 := (set_processed_files p (fst st), snd st) in
      let st' := snd (send_progress_notification rt success st0) in
      mkGateEvent p (fst (gate_call st0)) (last_notification_pct (fst st'))
        :: drive_progress rt st' rest
  end.

(** The same run, for the state it ends in *)
Fixpoint run_progress (rt : Runtime) (st : state) (steps : list (Z * bool)) : state :=
  match steps with
  | [] => st
  | (p, success) :: rest =>
      run_progress rt
        (snd (send_progress_notification rt success
                (set_processed_files p (fst st), snd st)))
        rest
  end.

(** The attributes no method assigns. *)
Definition frame (s s' : SlackNotifier) : Prop :=
  notification_percentages s' = notification_percentages s /\
  total_files s' = total_files s /\
  system_name s' = system_name s /\
  webhook_url s' = webhook_url s /\
  use_logging s' = use_logging s /\
  notification_log_path s' = notification_log_path s /\
  start_time s' = start_time s /\
  processed_files s' = processed_files s.

(** [m] relates the object before it to the object after it, also when
    it raises. *)
Definition preserves (P : SlackNotifier -> SlackNotifier -> Prop) {A : Type}
    (m : M A) : Prop :=
  forall st, P (fst st) (fst (snd (m st))).

(** The object is as it was. *)
Definition unchanged (s s' : SlackNotifier) : Prop := s' = s.

(** The threshold record is kept. *)
Definition same_last (s s' : SlackNotifier) : Prop :=
  last_notification_pct s' = last_notification_pct s.

(** The error counter is kept. *)
Definition same_errors (s s' : SlackNotifier) : Prop :=
  error_files s' = error_files s.

(** What one event of a run says, for a notifier whose thresholds and
    total are those of [s]. *)
Definition event_justified (s : SlackNotifier) (ev : gate_event) : Prop :=
  match outcome ev with
  | Fired t =>
      In t (notification_percentages s) /\
      exists pct,
        current_pct (set_processed_files (at_processed ev) s) = Return pct /\
        PyFloat.ge_int pct t = true
  | _ => True
  end.

(** An event that, if it fired, fired above [t] *)
Definition fires_above (t : Z) (ev : gate_event) : Prop :=
  match outcome ev with
  | Fired t' => t < t'
  | _ => True
  end.

(** The test the loop of [should_send_notification] makes on one threshold:
    [current_pct >= notification_pct > self.last_notification_pct] *)
Definition crosses (pct : PyFloat.float) (last t : Z) : bool :=
  PyFloat.ge_int pct t && (t >? last).

(** The section blocks that hold field groups, in order *)
Fixpoint field_group_blocks (blocks : list block) : list (list text_object) :=
  match blocks with
  | [] => []
  | section_fields group :: rest => group :: field_group_blocks rest
  | _ :: rest => field_group_blocks rest
  end.

(** A transport outcome that [send_notification] takes as a failure *)
Definition delivery_failed (r : result Response) : Prop :=
  match r with
  | Raise _ => True
  | Return response => 400 <= status_code response < 600
  end.

(** ** Test doubles *)

Definition no_json (text : string) : result json_value :=
  Raise (JSONDecodeError "Expecting value: line 1 column 1 (char 0)").

(** A runtime around a given transport; floats and times print as [?]. *)
Definition mock_runtime (post : option string -> list block -> result Response)
  : Runtime :=
  mkRuntime post no_json (fun _ _ => "?") (fun _ => "?").

(** A [json.loads] that reads every text as a JSON list *)
Definition json_list (text : string) : result json_value :=
  Return (JsonOther "list").

(** A [json.loads] that reads every text as the object [{"cmd": "make"}] *)
Definition json_object (text : string) : result json_value :=
  Return (JsonObject [("cmd", "make")]).

Definition post_refused (u : option string) (blocks : list block) : result Response :=
  Raise (RequestException "Connection refused").

Definition post_status (code : Z) (u : option string) (blocks : list block)
  : result Response :=
  Return (mkResponse code "" "https://hooks.slack.com/services/TEST").

Definition empty_world : World := mkWorld 0 [] [] [].

(** A file system on which every file opens *)
Definition opens_any (path : string) : result unit := Return tt.

(** An interpreter taken to reject every text outside ASCII *)
Definition ascii_only (text : string) : option Z := None.

(** The world once a first notifier has attached its handler for the
    default log file *)
Definition one_handler_world : World :=
  mkWorld 0 [Attached "notifications.log"] [] [].

(** The arguments of the test suite's notifier, with [total_files] given *)
Definition test_config (total : Z) : Config :=
  mkConfig None (Some "https://hooks.slack.com/services/TEST") total 0
    (Some "TestSystem") [] "localhost" opens_any ascii_only.

(** The notifier they give, once the host has set [processed_files] *)
Definition test_notifier (total processed : Z) : SlackNotifier :=
  mkSlackNotifier (Some "https://hooks.slack.com/services/TEST") false
    "TestSystem" "notifications.log" [20; 100] 0 0 total processed 0.


(** The same notifier with counters of 4301 digits, at 20 percent *)
Definition long_counter_notifier : SlackNotifier :=
  mkSlackNotifier (Some "https://hooks.slack.com/services/TEST") false
    "TestSystem" "notifications.log" [20; 100] 0 0 (5 * 10 ^ 4300) (10 ^ 4300) 0.

(** The same notifier without a webhook: logging-only mode *)
Definition logging_notifier (total processed : Z) : SlackNotifier :=
  mkSlackNotifier None true "TestSystem" "notifications.log" [20; 100] 0 0
    total processed 0.

(** A dict of [n] fields [k1: v1], ..., in this order *)
Definition numbered_fields (n : nat) : dict field_value :=
  map (fun i => ("k" ++ Py.str (Z.of_nat i), Text ("v" ++ Py.str (Z.of_nat i))))
      (seq 1 n).


(** * Properties *)

(** ** What a computation leaves alone *)

Section Preserves.

Context (P : SlackNotifier -> SlackNotifier -> Prop) `{!PreOrder P}.

Lemma preserves_ret {A : Type} (a : A) : preserves P (ret a).
Proof. intros st. reflexivity. Qed.

Lemma preserves_raise {A : Type} (e : exn) : preserves P (@raise A e).
Proof. intros st. reflexivity. Qed.

Lemma preserves_lift {A : Type} (r : result A) : preserves P (lift r).
Proof. intros st. reflexivity. Qed.

Lemma preserves_get_self : preserves P get_self.
Proof. intros st. reflexivity. Qed.

Lemma preserves_get_world : preserves P get_world.
Proof. intros st. reflexivity. Qed.

Lemma preserves_update_world (f : World -> World) : preserves P (update_world f).
Proof. intros st. reflexivity. Qed.

Lemma preserves_update_self (f : SlackNotifier -> SlackNotifier) :
  (forall s, P s (f s)) -> preserves P (update_self f).
Proof. intros Hf st. apply Hf. Qed.

Lemma preserves_bind {A B : Type} (m : M A) (k : A -> M B) :
  preserves P m -> (forall a, preserves P (k a)) -> preserves P (bind m k).
Proof.
  intros Hm Hk st. unfold bind.
  specialize (Hm st).
  destruct (m st) as [[a | e] st1]; simpl in *.
  - etransitivity; [exact Hm | apply Hk].
  - exact Hm.
Qed.

Lemma preserves_try_except {A : Type} (body : M A) (handler : exn -> M A) :
  preserves P body -> (forall e, preserves P (handler e)) ->
  preserves P (try_except body handler).
Proof.
  intros Hb Hh st. unfold try_except.
  specialize (Hb st).
  destruct (body st) as [[a | e] st1]; simpl in *.
  - exact Hb.
  - etransitivity; [exact Hb | apply Hh].
Qed.

Lemma preserves_notification_logger (levelname text : string) :
  preserves P (notification_logger levelname text).
Proof.
  unfold notification_logger.
  destruct (levelname =? "DEBUG")%string;
    [apply preserves_ret | apply preserves_update_world].
Qed.

Lemma preserves_logging_error (text : string) : preserves P (logging_error text).
Proof. apply preserves_update_world. Qed.

End Preserves.

Create HintDb frame.

#[local] Hint Resolve preserves_ret preserves_raise preserves_lift
  preserves_get_self preserves_get_world preserves_update_world
  preserves_notification_logger preserves_logging_error : frame.

(** Splits a computation along its binds and branches. *)
Ltac preserve_step :=
  match goal with
  | |- preserves _ (bind _ _) => apply preserves_bind; [exact _ | | intros ?]
  | |- preserves _ (try_except _ _) =>
      apply preserves_try_except; [exact _ | | intros ?]
  | |- preserves _ (if ?c then _ else _) => destruct c
  | |- preserves _ (match ?x with _ => _ end) => destruct x
  | |- preserves _ _ => solve [auto with frame typeclass_instances]
  end.

Ltac preserve := repeat preserve_step.

Section PreservesMethods.

Context (rt : Runtime) (P : SlackNotifier -> SlackNotifier -> Prop) `{!PreOrder P}.

(** [send_notification] assigns no attribute at all. *)
Lemma preserves_send_notification level message title fields fields_code_block :
  preserves P (send_notification rt level message title fields fields_code_block).
Proof.
  unfold send_notification, _log_notification, _create_message_blocks,
    _send_to_slack.
  preserve.
Qed.

End PreservesMethods.

#[local] Hint Resolve preserves_send_notification : frame.

#[export] Instance frame_preorder : PreOrder frame.
Proof.
  split.
  - intros s. unfold frame. repeat split.
  - intros s1 s2 s3 H12 H23. unfold frame in *.
    destruct H12 as (?&?&?&?&?&?&?&?), H23 as (?&?&?&?&?&?&?&?).
    repeat split; congruence.
Qed.



#[export] Instance same_last_preorder : PreOrder same_last.
Proof.
  split.
  - intros s. reflexivity.
  - intros s1 s2 s3 H12 H23. unfold same_last in *. congruence.
Qed.



#[export] Instance same_errors_preorder : PreOrder same_errors.
Proof.
  split.
  - intros s. reflexivity.
  - intros s1 s2 s3 H12 H23. unfold same_errors in *. congruence.
Qed.



#[export] Instance unchanged_preorder : PreOrder unchanged.
Proof.
  split.
  - intros s. reflexivity.
  - intros s1 s2 s3 H12 H23. unfold unchanged in *. congruence.
Qed.

(** ** The gate *)

Lemma for_notification_pct_cases (pct : PyFloat.float) (pcts : list Z)
    (s : SlackNotifier) (w : World) :
  (exists t, In t pcts /\ PyFloat.ge_int pct t = true /\
             last_notification_pct s < t /\
             for_notification_pct pct pcts (s, w)
             = (Return true, (set_last_notification_pct t s, w)))
  \/ for_notification_pct pct pcts (s, w) = (Return false, (s, w)).
Proof.
  induction pcts as [| t rest IH].
  - right. reflexivity.
  - cbn [for_notification_pct]. unfold bind, get_self. cbn [fst snd].
    destruct (PyFloat.ge_int pct t) eqn:Hge; cbn [andb].
    + destruct (t >? last_notification_pct s) eqn:Hgt.
      * left. exists t. apply Z.gtb_lt in Hgt.
        repeat split; [now left | assumption ..].
      * destruct IH as [(t' & Hin & Hge' & Hlt & Hrun) | Hrun].
        -- left. exists t'. repeat split; [now right | assumption ..].
        -- right. assumption.
    + destruct IH as [(t' & Hin & Hge' & Hlt & Hrun) | Hrun].
      * left. exists t'. repeat split; [now right | assumption ..].
      * right. assumption.
Qed.

(** An integer division by a non-zero divisor can only overflow. *)
Lemma truediv_int_raises (a b : Z) (e : exn) :
  b <> 0 -> PyFloat.truediv_int a b = Raise e -> exists msg, e = OverflowError msg.
Proof.
  intros Hb. unfold PyFloat.truediv_int.
  destruct (b =? 0) eqn:Hb0; [lia |].
  destruct (a =? 0); [discriminate |].
  destruct (SFdiv_core_binary _ _ _ _ _ _) as [[q ex] l].
  destruct (binary_round_aux _ _ _ _ _ _); intros H; inversion H; eauto.
Qed.

Lemma truediv_int_zero (a : Z) : PyFloat.truediv_int a 0 = Raise ZeroDivisionError.
Proof. reflexivity. Qed.

Lemma current_pct_raises (s : SlackNotifier) (e : exn) :
  total_files s <> 0 -> current_pct s = Raise e -> exists msg, e = OverflowError msg.
Proof.
  intros Ht. unfold current_pct.
  destruct (PyFloat.truediv_int _ _) as [ratio | e'] eqn:Hdiv; [discriminate |].
  intros H. inversion H. subst e'.
  eapply truediv_int_raises; eassumption.
Qed.

(** The percentage looks at the two counters only. *)
Lemma current_pct_ext (s s' : SlackNotifier) :
  processed_files s' = processed_files s -> total_files s' = total_files s ->
  current_pct s' = current_pct s.
Proof. intros Hp Ht. unfold current_pct. rewrite Hp, Ht. reflexivity. Qed.

(** The three ways a call of the gate can end. *)
Lemma gate_call_cases (s : SlackNotifier) (w : World) :
  (exists t pct,
      gate_call (s, w) = (Fired t, (set_last_notification_pct t s, w)) /\
      In t (notification_percentages s) /\
      last_notification_pct s < t /\
      total_files s <> 0 /\
      current_pct s = Return pct /\ PyFloat.ge_int pct t = true)
  \/ gate_call (s, w) = (Quiet, (s, w))
  \/ (exists msg, total_files s <> 0 /\
                  gate_call (s, w) = (Raised (OverflowError msg), (s, w))).
Proof.
  unfold gate_call, should_send_notification, bind, get_self, lift.
  cbn [fst snd].
  destruct (total_files s =? 0) eqn:Htotal.
  - right. left. reflexivity.
  - assert (Hne : total_files s <> 0) by lia.
    destruct (current_pct s) as [pct | e] eqn:Hpct.
    + destruct (for_notification_pct_cases pct (notification_percentages s) s w)
        as [(t & Hin & Hge & Hlt & Hrun) | Hrun]; rewrite Hrun.
      * left. exists t, pct. repeat split; assumption.
      * right. left. reflexivity.
    + right. right.
      destruct (current_pct_raises s e Hne Hpct) as [msg ->].
      exists msg. split; [assumption | reflexivity].
Qed.

(** After any call the record is where it was or higher. *)
Lemma gate_call_last (st : state) :
  last_notification_pct (fst st) <= last_notification_pct (fst (snd (gate_call st))).
Proof.
  destruct st as [s w].
  destruct (gate_call_cases s w)
    as [(t & pct & Hrun & _ & Hlt & _) | [Hrun | (msg & _ & Hrun)]];
    rewrite Hrun; cbn; lia.
Qed.

Lemma gate_call_frame (st : state) : frame (fst st) (fst (snd (gate_call st))).
Proof.
  destruct st as [s w].
  destruct (gate_call_cases s w)
    as [(t & pct & Hrun & _) | [Hrun | (msg & _ & Hrun)]];
    rewrite Hrun; cbn [fst snd]; try reflexivity.
  unfold frame. repeat split.
Qed.

(** A threshold that fires is above the record the call started from. *)
Lemma gate_call_fired (st st' : state) (t : Z) :
  gate_call st = (Fired t, st') ->
  last_notification_pct (fst st) < t /\ last_notification_pct (fst st') = t.
Proof.
  destruct st as [s w].
  destruct (gate_call_cases s w)
    as [(t' & pct & Hrun & _ & Hlt & _) | [Hrun | (msg & _ & Hrun)]];
    rewrite Hrun; intros H; inversion H; subst.
  split; [assumption | reflexivity].
Qed.



Lemma strongly_sorted_lt_cons (x y : Z) (l : list Z) :
  x < y -> StronglySorted Z.lt (y :: l) -> StronglySorted Z.lt (x :: y :: l).
Proof.
  intros Hxy Hs. constructor; [assumption |].
  constructor; [assumption |].
  inversion Hs as [| ? ? _ Hall]; subst.
  eapply Forall_impl; [| exact Hall]. cbv beta. intros z Hz. lia.
Qed.

Lemma strongly_sorted_le_cons (x y : Z) (l : list Z) :
  x <= y -> StronglySorted Z.le (y :: l) -> StronglySorted Z.le (x :: y :: l).
Proof.
  intros Hxy Hs. constructor; [assumption |].
  constructor; [assumption |].
  inversion Hs as [| ? ? _ Hall]; subst.
  eapply Forall_impl; [| exact Hall]. cbv beta. intros z Hz. lia.
Qed.

Lemma strongly_sorted_lt_nodup (l : list Z) : StronglySorted Z.lt l -> NoDup l.
Proof.
  induction 1 as [| x l Hs IH Hall]; constructor; [| assumption].
  intros Hin. rewrite Forall_forall in Hall. specialize (Hall x Hin). lia.
Qed.

(** The thresholds fired in a run rise strictly from the starting record. *)
Lemma drive_gate_fired_sorted (progress : list Z) (st : state) :
  StronglySorted Z.lt (last_notification_pct (fst st) :: fired (drive_gate st progress)).
Proof.
  revert st. induction progress as [| p rest IH]; intros [s w].
  - cbn. constructor; constructor.
  - cbn [drive_gate fst snd].
    destruct (gate_call (set_processed_files p s, w)) as [o st'] eqn:Hcall.
    specialize (IH st'). cbn [fired outcome].
    destruct o as [t | | e].
    + apply gate_call_fired in Hcall. cbn in Hcall. destruct Hcall as [Hlt Hlast].
      rewrite Hlast in IH. now apply strongly_sorted_lt_cons.
    + destruct (gate_call_cases (set_processed_files p s) w)
        as [(t & pct & Hrun & _) | [Hrun | (msg & _ & Hrun)]];
        rewrite Hrun in Hcall; inversion Hcall; subst. exact IH.
    + destruct (gate_call_cases (set_processed_files p s) w)
        as [(t & pct & Hrun & _) | [Hrun | (msg & _ & Hrun)]];
        rewrite Hrun in Hcall; inversion Hcall; subst. exact IH.
Qed.

Lemma drive_gate_last_sorted (progress : list Z) (st : state) :
  StronglySorted Z.le
    (last_notification_pct (fst st) :: map last_after (drive_gate st progress)).
Proof.
  revert st. induction progress as [| p rest IH]; intros [s w].
  - cbn. constructor; constructor.
  - cbn [drive_gate fst snd].
    pose proof (gate_call_last (set_processed_files p s, w)) as Hle.
    destruct (gate_call (set_processed_files p s, w)) as [o st'].
    cbn [map last_after]. cbn in Hle.
    apply strongly_sorted_le_cons; [exact Hle | apply IH].
Qed.

Lemma drive_gate_justified (s : SlackNotifier) (progress : list Z) (st : state) :
  notification_percentages (fst st) = notification_percentages s ->
  total_files (fst st) = total_files s ->
  Forall (event_justified s) (drive_gate st progress).
Proof.
  revert st. induction progress as [| p rest IH]; intros [s0 w] Hpcts Htotal.
  - constructor.
  - cbn [drive_gate fst snd]. cbn [fst] in Hpcts, Htotal.
    destruct (gate_call_cases (set_processed_files p s0) w)
      as [(t & pct & Hrun & Hin & _ & _ & Hpct & Hge) | [Hrun | (msg & _ & Hrun)]];
      rewrite Hrun; (constructor; [| apply IH; cbn; assumption]);
      unfold event_justified; cbn [outcome at_processed]; try exact I.
    split.
    + cbn in Hin. congruence.
    + exists pct. split; [| exact Hge].
      rewrite <- Hpct. apply current_pct_ext; cbn; congruence.
Qed.

(** C1.  For every threshold list and every progress sequence driving the
    gate: no threshold fires twice; the thresholds fire in ascending order;
    a threshold that fires belongs to the list and the percentage
    [processed_files / total_files * 100] of that call is at least the
    threshold; and [last_notification_pct] never decreases from one call to
    the next. *)
Theorem gate_fires_once_ascending (s : SlackNotifier) (w : World) (progress : list Z) :
  let events := drive_gate (s, w) progress in
  NoDup (fired events) /\
  StronglySorted Z.lt (fired events) /\
  Forall (event_justified s) events /\
  StronglySorted Z.le (last_notification_pct s :: map last_after events).
Proof.
  intros events. subst events.
  pose proof (drive_gate_fired_sorted progress (s, w)) as Hsorted.
  inversion Hsorted as [| ? ? Hfired _]; subst.
  repeat split.
  - now apply strongly_sorted_lt_nodup.
  - exact Hfired.
  - now apply drive_gate_justified.
  - apply (drive_gate_last_sorted progress (s, w)).
Qed.

(** C6.  When [total_files] is zero the gate returns false and changes
    nothing, whatever [processed_files] is; the division, which would raise
    [ZeroDivisionError] on these counters, is not reached: the call returns
    instead of raising. *)
Theorem gate_false_on_zero_total (s : SlackNotifier) (w : World) :
  total_files s = 0 ->
  should_send_notification (s, w) = (Return false, (s, w)) /\
  PyFloat.truediv_int (processed_files s) (total_files s) = Raise ZeroDivisionError.
Proof.
  intros Htotal. split.
  - unfold should_send_notification, bind, get_self. cbn [fst snd].
    rewrite Htotal. reflexivity.
  - rewrite Htotal. apply truediv_int_zero.
Qed.

Lemma gate_false_on_zero_total_witness :
  total_files (test_notifier 0 7) = 0 /\
  should_send_notification (test_notifier 0 7, empty_world)
  = (Return false, (test_notifier 0 7, empty_world)).
Proof.
  split; [reflexivity |].
  apply (gate_false_on_zero_total (test_notifier 0 7) empty_world).
  reflexivity.
Defined.

(** The gate never raises [ZeroDivisionError], on any counters. *)
Lemma gate_never_divides_by_zero (st : state) :
  fst (should_send_notification st) <> Raise ZeroDivisionError.
Proof.
  destruct st as [s w].
  pose proof (gate_call_cases s w) as Hcases. unfold gate_call in Hcases.
  destruct (should_send_notification (s, w)) as [[[|] | e] st'];
    cbn [fst]; try discriminate.
  destruct Hcases as [(t & pct & Hrun & _) | [Hrun | (msg & _ & Hrun)]];
    inversion Hrun; discriminate.
Qed.

(** ** Full progress *)

(** [n / n] is exactly [1.0]. *)
Lemma truediv_int_same (n : Z) : n <> 0 -> PyFloat.truediv_int n n = Return PyFloat.one.
Proof.
  intros Hn. unfold PyFloat.truediv_int.
  destruct (n =? 0) eqn:Hn0; [lia |].
  rewrite xorb_nilpotent.
  unfold SFdiv_core_binary.
  replace (Zdigits2 (Z.abs n) + 0 - (Zdigits2 (Z.abs n) + 0)) with 0 by lia.
  change (Z.min (fexp PyFloat.prec PyFloat.emax 0) (0 - 0)) with (-53).
  change (0 - 0 - -53) with 53.
  cbv iota beta.
  rewrite Z.shiftl_mul_pow2 by lia.
  assert (Habs : Z.abs n <> 0) by lia.
  assert (Hdiv : Z.div_eucl (Z.abs n * 2 ^ 53) (Z.abs n) = (2 ^ 53, 0)).
  { pose proof (Z.div_mul (2 ^ 53) (Z.abs n) Habs) as Hq.
    pose proof (Z.mod_mul (2 ^ 53) (Z.abs n) Habs) as Hr.
    rewrite Z.mul_comm in Hq, Hr.
    unfold Z.div, Z.modulo in Hq, Hr.
    destruct (Z.div_eucl (Z.abs n * 2 ^ 53) (Z.abs n)) as [q r].
    cbn [fst snd] in Hq. subst q r. reflexivity. }
  rewrite Hdiv.
  assert (Hloc : new_location (Z.abs n) 0 = loc_Exact).
  { unfold new_location, new_location_even, new_location_odd.
    destruct (Z.even (Z.abs n)); reflexivity. }
  rewrite Hloc. vm_compute. reflexivity.
Qed.

Lemma current_pct_full (s : SlackNotifier) :
  total_files s <> 0 -> processed_files s = total_files s ->
  current_pct s = Return PyFloat.f100.
Proof.
  intros Htotal Hfull. unfold current_pct.
  rewrite Hfull, truediv_int_same by assumption.
  reflexivity.
Qed.

(** C2, as the code has it.  With thresholds [20, 100], nothing notified
    yet and [processed_files] set to [total_files] in one step, the call of
    the gate fires once, and the threshold that fires is 20, the lowest one
    reached; [last_notification_pct] becomes 20. *)
Theorem full_jump_fires_lowest (s : SlackNotifier) (w : World) :
  notification_percentages s = [20; 100] ->
  last_notification_pct s = 0 ->
  total_files s <> 0 ->
  drive_gate (s, w) [total_files s]
  = [mkGateEvent (total_files s) (Fired 20) 20].
Proof.
  intros Hpcts Hlast Htotal.
  cbn [drive_gate fst snd].
  unfold gate_call, should_send_notification, bind, get_self, lift.
  cbn [fst snd].
  replace (total_files (set_processed_files (total_files s) s) =? 0) with false
    by (cbn; lia).
  rewrite current_pct_full by (cbn; auto).
  cbn [notification_percentages set_processed_files]. rewrite Hpcts.
  cbn [for_notification_pct]. unfold bind, get_self. cbn [fst snd].
  cbn [last_notification_pct set_processed_files]. rewrite Hlast.
  reflexivity.
Qed.

Lemma full_jump_fires_lowest_witness :
  drive_gate (test_notifier 50 0, empty_world) [50]
  = [mkGateEvent 50 (Fired 20) 20].
Proof.
  apply (full_jump_fires_lowest (test_notifier 50 0) empty_world);
    [reflexivity | reflexivity | cbn; lia].
Defined.

(** C2, as stated, fails: on 50 of 50 files the one call fires 20, not
    100. *)
Lemma full_jump_does_not_fire_100 :
  notification_percentages (test_notifier 50 0) = [20; 100] /\
  last_notification_pct (test_notifier 50 0) = 0 /\
  fired (drive_gate (test_notifier 50 0, empty_world) [50]) <> [100].
Proof.
  repeat split. vm_compute. discriminate.
Qed.

(** The next call at the same progress fires 100. *)
Lemma full_jump_second_call :
  fired (drive_gate (test_notifier 50 0, empty_world) [50; 50; 50]) = [20; 100].
Proof. vm_compute. reflexivity. Qed.

(** ** Progress notifications *)

Section PreservesProgress.

Context (rt : Runtime) (P : SlackNotifier -> SlackNotifier -> Prop) `{!PreOrder P}.

Lemma preserves_for_notification_pct (pct : PyFloat.float) (pcts : list Z) :
  (forall v s, P s (set_last_notification_pct v s)) ->
  preserves P (for_notification_pct pct pcts).
Proof.
  intros Hlast. induction pcts as [| t rest IH]; cbn [for_notification_pct].
  - auto with frame.
  - preserve. apply preserves_update_self. intros s. apply Hlast.
Qed.

Lemma preserves_should_send_notification :
  (forall v s, P s (set_last_notification_pct v s)) ->
  preserves P should_send_notification.
Proof.
  intros Hlast. unfold should_send_notification.
  preserve. now apply preserves_for_notification_pct.
Qed.

Lemma preserves_progress_summary (success : bool) :
  (forall v s, P s (set_error_files v s)) ->
  preserves P (progress_summary rt success).
Proof.
  intros Herrors. unfold progress_summary, send_info.
  preserve. apply preserves_update_self. intros s. apply Herrors.
Qed.

Lemma preserves_send_progress_notification (success : bool) :
  (forall v s, P s (set_last_notification_pct v s)) ->
  (forall v s, P s (set_error_files v s)) ->
  preserves P (send_progress_notification rt success).
Proof.
  intros Hlast Herrors. unfold send_progress_notification.
  preserve;
    solve [now apply preserves_should_send_notification
          | now apply preserves_progress_summary].
Qed.

End PreservesProgress.

(** The call starts with the gate; when the gate fires, the rest runs on
    the state the gate left. *)
Lemma send_progress_notification_unfold (rt : Runtime) (success : bool) (st : state) :
  send_progress_notification rt success st
  = match gate_call st with
    | (Fired _, st') => progress_summary rt success st'
    | (Quiet, st') => (Return tt, st')
    | (Raised e, st') => (Raise e, st')
    end.
Proof.
  unfold send_progress_notification, gate_call, bind.
  destruct (should_send_notification st) as [[[|] | e] st']; reflexivity.
Qed.

Lemma send_progress_notification_last (rt : Runtime) (success : bool) (st : state) :
  last_notification_pct (fst (snd (send_progress_notification rt success st)))
  = last_notification_pct (fst (snd (gate_call st))).
Proof.
  rewrite send_progress_notification_unfold.
  destruct (gate_call st) as [[t | | e] st']; cbn [fst snd]; try reflexivity.
  apply (preserves_progress_summary rt same_last success (fun v s => eq_refl)).
Qed.

(** X18.  What [send_progress_notification] does with [error_files]: it
    adds one when the unit is reported as failed and the gate fires on this
    call, and leaves the counter alone in every other case, also when the
    call raises. *)
Lemma send_progress_notification_error_files (rt : Runtime) (success : bool)
    (st : state) :
  error_files (fst (snd (send_progress_notification rt success st)))
  = error_files (fst st)
    + match fst (gate_call st) with
      | Fired _ => if success then 0 else 1
      | _ => 0
      end.
Proof.
  rewrite send_progress_notification_unfold.
  pose proof (preserves_should_send_notification same_errors) as Hgate.
  specialize (Hgate (fun v s => eq_refl) st).
  unfold same_errors in Hgate.
  assert (Hst : error_files (fst (snd (gate_call st))) = error_files (fst st)).
  { unfold gate_call.
    destruct (should_send_notification st) as [[[|] | e] st']; exact Hgate. }
  destruct (gate_call st) as [[t | | e] st']; cbn [fst snd] in *; try lia.
  unfold progress_summary. unfold bind at 1.
  destruct success; cbn [negb].
  - cbn [ret].
    match goal with
    | |- error_files (fst (snd (?m st'))) = _ =>
        assert (Hrest : preserves same_errors m) by (unfold send_info; preserve)
    end.
    rewrite (Hrest st'). lia.
  - cbn [update_self].
    match goal with
    | |- error_files (fst (snd (?m ?st1))) = _ =>
        assert (Hrest : preserves same_errors m) by (unfold send_info; preserve);
        rewrite (Hrest st1)
    end.
    cbn. lia.
Qed.

(** C3, on the code.  A unit reported as failed at 10 of 100 files, below
    the first threshold: the gate returns false, the method returns at
    once, and [error_files] is still 0. *)
Theorem failed_unit_below_threshold_not_counted (rt : Runtime) :
  send_progress_notification rt false (test_notifier 100 10, empty_world)
  = (Return tt, (test_notifier 100 10, empty_world)) /\
  error_files (test_notifier 100 10) = 0.
Proof. split; reflexivity. Qed.

(** C9.  None of the methods assigns the threshold list, [total_files],
    [system_name], [webhook_url] or [use_logging], nor any attribute other
    than [last_notification_pct] and [error_files], on any input and
    whether it returns or raises. *)
Theorem methods_keep_configuration (rt : Runtime) (level : NotificationLevel)
    (message : string) (title : option string) (fields : option (dict field_value))
    (fields_code_block : option code_block_arg) (success : bool) :
  preserves frame (send_notification rt level message title fields fields_code_block) /\
  preserves frame should_send_notification /\
  preserves frame (send_progress_notification rt success) /\
  preserves frame (send_success rt message title fields fields_code_block) /\
  preserves frame (send_warning rt message title fields fields_code_block) /\
  preserves frame (send_error rt message title fields fields_code_block) /\
  preserves frame (send_info rt message title fields fields_code_block) /\
  preserves frame (send_debug rt message title fields fields_code_block).
Proof.
  assert (Hlast : forall v s, frame s (set_last_notification_pct v s))
    by (intros v s; unfold frame; repeat split).
  assert (Herrors : forall v s, frame s (set_error_files v s))
    by (intros v s; unfold frame; repeat split).
  repeat apply conj;
    solve [ apply preserves_send_notification; exact _
          | apply preserves_should_send_notification; [exact _ | exact Hlast]
          | apply preserves_send_progress_notification;
            [exact _ | exact Hlast | exact Herrors] ].
Qed.

(** X14.  [send_notification] leaves the whole object as it was, the two
    counters [last_notification_pct] and [error_files] included, on every
    input and whether the delivery succeeds or not. *)
Lemma send_notification_keeps_self (rt : Runtime) level message title fields
    fields_code_block (st : state) :
  fst (snd (send_notification rt level message title fields fields_code_block st))
  = fst st.
Proof.
  exact (preserves_send_notification rt unchanged level message title fields
           fields_code_block st).
Qed.



Lemma fires_above_weaken (t t' : Z) (events : list gate_event) :
  t <= t' -> Forall (fires_above t') events -> Forall (fires_above t) events.
Proof.
  intros Hle Hall. eapply Forall_impl; [| exact Hall].
  intros ev. unfold fires_above. destruct (outcome ev); intros; lia || exact I.
Qed.

(** Later progress calls fire only thresholds above the current record. *)
Lemma drive_progress_fires_above (rt : Runtime) (steps : list (Z * bool)) (st : state) :
  Forall (fires_above (last_notification_pct (fst st))) (drive_progress rt st steps).
Proof.
  revert st. induction steps as [| [p success] rest IH]; intros [s w].
  - constructor.
  - cbn [drive_progress fst snd].
    set (st0 := (set_processed_files p s, w)).
    constructor.
    + unfold fires_above. cbn [outcome].
      destruct (gate_call st0) as [[t | | e] st'] eqn:Hcall; cbn [fst]; try exact I.
      apply gate_call_fired in Hcall. cbn in Hcall. lia.
    + eapply fires_above_weaken; [| apply IH].
      rewrite send_progress_notification_last.
      pose proof (gate_call_last st0) as Hle. cbn in Hle. exact Hle.
Qed.

(** C10.  When the gate fires with threshold [t] inside
    [send_progress_notification], the rest of the method, which emits the
    notification, runs on a state whose [last_notification_pct] is already
    [t]; at the end of the call it still is [t], whatever the transport did
    with the request; and in any later run of progress calls only thresholds
    above [t] fire, so [t] is not notified again. *)
Theorem fired_threshold_not_retried (rt : Runtime) (success : bool)
    (st st1 : state) (t : Z) (steps : list (Z * bool)) :
  gate_call st = (Fired t, st1) ->
  last_notification_pct (fst st1) = t /\
  send_progress_notification rt success st = progress_summary rt success st1 /\
  last_notification_pct (fst (snd (send_progress_notification rt success st))) = t /\
  Forall (fires_above t)
    (drive_progress rt (snd (send_progress_notification rt success st)) steps).
Proof.
  intros Hcall.
  pose proof (gate_call_fired st st1 t Hcall) as [_ Hlast].
  assert (Hend : last_notification_pct
                   (fst (snd (send_progress_notification rt success st))) = t).
  { rewrite send_progress_notification_last, Hcall. exact Hlast. }
  repeat apply conj.
  - exact Hlast.
  - rewrite send_progress_notification_unfold, Hcall. reflexivity.
  - exact Hend.
  - rewrite <- Hend. apply drive_progress_fires_above.
Qed.

(** At 20 of 100 files with a transport that refuses the connection: the
    delivery fails, 20 stays recorded, and the later calls at 20, 50 and 100
    files fire 100 only. *)
Lemma fired_threshold_not_retried_witness :
  root_log (snd (snd (send_progress_notification (mock_runtime post_refused) false
                        (test_notifier 100 20, empty_world))))
  = ["Failed to send notification: Connection refused"] /\
  last_notification_pct
    (fst (snd (send_progress_notification (mock_runtime post_refused) false
                 (test_notifier 100 20, empty_world)))) = 20 /\
  Forall (fires_above 20)
    (drive_progress (mock_runtime post_refused)
       (snd (send_progress_notification (mock_runtime post_refused) false
               (test_notifier 100 20, empty_world)))
       [(20, true); (50, false); (100, true)]).
Proof.
  split; [vm_compute; reflexivity |].
  apply (fired_threshold_not_retried (mock_runtime post_refused) false
           (test_notifier 100 20, empty_world)
           (set_last_notification_pct 20 (test_notifier 100 20), empty_world)
           20 [(20, true); (50, false); (100, true)]).
  vm_compute. reflexivity.
Defined.

(** ** Delivery *)

(** C4, as the code has it.  In remote mode, once the blocks are built: if
    [requests.post] raises, or returns a response whose status is a client
    or server error (400 to 599), then [send_notification] returns false
    instead of raising, has handed exactly one request to the transport, and
    has written one line to the root logger. *)
Theorem remote_failure_returns_false (rt : Runtime) (s : SlackNotifier) (w : World)
    (level : NotificationLevel) (message : string) (title : option string)
    (fields : option (dict field_value)) (fields_code_block : option code_block_arg)
    (blocks : list block) :
  use_logging s = false ->
  _create_message_blocks rt level message title fields fields_code_block (s, w)
  = (Return blocks, (s, w)) ->
  delivery_failed (requests_post rt (webhook_url s) blocks) ->
  exists text,
    send_notification rt level message title fields fields_code_block (s, w)
    = (Return false,
       (s, mkWorld (now w) (notification_log w) (Py.append (root_log w) text)
             (Py.append (posted w) (webhook_url s, blocks)))).
Proof.
  intros Hmode Hblocks Hfail.
  unfold send_notification, try_except.
  unfold bind at 1. unfold get_self at 1. cbn [fst snd].
  rewrite Hmode.
  unfold bind at 1. rewrite Hblocks.
  unfold bind at 1. unfold _send_to_slack.
  unfold bind at 1. unfold get_self at 1. cbn [fst snd].
  unfold bind at 1. unfold update_world at 1. cbn [fst snd].
  unfold lift at 1.
  destruct (requests_post rt (webhook_url s) blocks) as [response | e].
  - cbn in Hfail. unfold bind at 1. unfold lift, raise_for_status.
    destruct ((400 <=? status_code response) && (status_code response <? 500)) eqn:H4.
    + eexists. unfold bind, get_self, logging_error, update_world, ret.
      cbn [fst snd]. rewrite Hmode. cbn [negb fst snd]. reflexivity.
    + destruct ((500 <=? status_code response) && (status_code response <? 600)) eqn:H5.
      * eexists. unfold bind, get_self, logging_error, update_world, ret.
        cbn [fst snd]. rewrite Hmode. cbn [negb fst snd]. reflexivity.
      * lia.
  - eexists. unfold bind, get_self, logging_error, update_world, ret.
    cbn [fst snd]. rewrite Hmode. cbn [negb fst snd]. reflexivity.
Qed.

Lemma remote_failure_returns_false_witness :
  exists text,
    send_notification (mock_runtime (post_status 503)) WARNING "disk almost full"
      None None None (test_notifier 0 0, empty_world)
    = (Return false,
       (test_notifier 0 0,
        mkWorld 0 [] [text]
          [(Some "https://hooks.slack.com/services/TEST",
            [section_text (mrkdwn (level_value WARNING ++ " *WARNING*" ++ nl
                                   ++ "disk almost full"));
             context [mrkdwn "System: TestSystem | Sent at: ?"]])])).
Proof.
  apply (remote_failure_returns_false (mock_runtime (post_status 503))
           (test_notifier 0 0) empty_world WARNING "disk almost full"
           None None None).
  - reflexivity.
  - reflexivity.
  - cbn. lia.
Defined.

Lemma send_notification_result (rt : Runtime) level message title fields
    fields_code_block (st : state) :
  exists sent : bool,
    fst (send_notification rt level message title fields fields_code_block st)
    = Return sent.
Proof.
  unfold send_notification, try_except.
  match goal with
  | |- context [match ?body st with _ => _ end] =>
      destruct (body st) as [[sent | e] st1]
  end.
  - exists sent. reflexivity.
  - exists false. unfold bind, get_self.
    destruct (negb (use_logging (fst st1))); reflexivity.
Qed.

(** X8.  [send_notification] never raises, on any input and in either
    mode: every exception of its body ends in the handler, and the caller
    gets true or false. *)
Lemma send_notification_never_raises (rt : Runtime) level message title fields
    fields_code_block (st : state) :
  exists sent : bool,
    fst (send_notification rt level message title fields fields_code_block st)
    = Return sent.
Proof. apply send_notification_result. Qed.

(** Building the blocks changes nothing. *)
Lemma create_message_blocks_state (rt : Runtime) level message title fields
    fields_code_block (st : state) :
  snd (_create_message_blocks rt level message title fields fields_code_block st) = st.
Proof.
  unfold _create_message_blocks.
  destruct fields_code_block as [[[| item d] | [| c text]] |]; try reflexivity.
  destruct (json_loads rt (String c text)) as [[d | type_name] | []]; reflexivity.
Qed.

Lemma send_notification_requests (rt : Runtime) level message title
    fields fields_code_block (s : SlackNotifier) (w : World) :
  let w' := snd (snd (send_notification rt level message title fields
                        fields_code_block (s, w))) in
  posted w' = posted w \/
  exists blocks, posted w' = Py.append (posted w) (webhook_url s, blocks).
Proof.
  intros w'.
  remember (send_notification rt level message title fields fields_code_block (s, w))
    as r eqn:Hr.
  unfold send_notification, try_except in Hr.
  unfold bind at 1 in Hr. unfold get_self at 1 in Hr. cbn [fst snd] in Hr.
  destruct (use_logging s) eqn:Hmode.
  - left. unfold _log_notification in Hr.
    destruct (_format_code_blocks_for_logging fields_code_block) as [text | e];
      unfold bind, lift, get_self in Hr; cbn [fst snd] in Hr; rewrite ?Hmode in Hr;
      [destruct level |]; subst w' r; reflexivity.
  - pose proof (create_message_blocks_state rt level message title fields
                  fields_code_block (s, w)) as Hstate.
    unfold bind at 1 in Hr.
    destruct (_create_message_blocks rt level message title fields
                fields_code_block (s, w)) as [[blocks | e] st1];
      cbn [snd] in Hstate; subst st1.
    + right. exists blocks.
      unfold _send_to_slack, bind, get_self, update_world, lift in Hr.
      cbn [fst snd] in Hr.
      destruct (requests_post rt (webhook_url s) blocks) as [response | e].
      * destruct (raise_for_status response) as [[] | e];
          cbn [fst snd] in Hr; rewrite ?Hmode in Hr; subst w' r; reflexivity.
      * cbn [fst snd] in Hr. rewrite Hmode in Hr. subst w' r. reflexivity.
    + left. unfold bind, get_self in Hr. cbn [fst snd] in Hr.
      rewrite Hmode in Hr. subst w' r. reflexivity.
Qed.

(** X9.  On every input and in either mode, one call of
    [send_notification] hands at most one request to the transport, and a
    request goes to the configured [webhook_url]. *)
Lemma send_notification_at_most_one_request (rt : Runtime) level message title
    fields fields_code_block (s : SlackNotifier) (w : World) :
  let w' := snd (snd (send_notification rt level message title fields
                        fields_code_block (s, w))) in
  posted w' = posted w \/
  exists blocks, posted w' = Py.append (posted w) (webhook_url s, blocks).
Proof. apply send_notification_requests. Qed.

(** C4, as stated, fails: a response with status 304 is not a 2xx one, and
    [send_notification] returns true on it. *)
Lemma redirect_status_counts_as_sent :
  use_logging (test_notifier 0 0) = false /\
  ~ (200 <= 304 < 300) /\
  fst (send_notification (mock_runtime (post_status 304)) INFO "done" None None None
         (test_notifier 0 0, empty_world)) = Return true.
Proof.
  split; [reflexivity |]. split; [lia |]. vm_compute. reflexivity.
Qed.

(** When the blocks cannot be built the transport is not reached: a code
    block given as the text of a JSON list makes the call return false with
    no request at all. *)
Lemma remote_unreadable_code_block_sends_nothing :
  send_notification (mkRuntime post_refused json_list (fun _ _ => "?") (fun _ => "?"))
    INFO "done" None None (Some (CodeStr "[1, 2]")) (test_notifier 0 0, empty_world)
  = (Return false,
     (test_notifier 0 0,
      mkWorld 0 []
        ["Failed to send notification: 'list' object has no attribute 'items'"] [])).
Proof. reflexivity. Qed.

(** The blocks are always built when the code blocks come as a dict or
    not at all. *)
Lemma create_message_blocks_returns (rt : Runtime) level message title fields
    (fields_code_block : option code_block_arg) (st : state) :
  match fields_code_block with Some (CodeStr _) => False | _ => True end ->
  exists blocks,
    _create_message_blocks rt level message title fields fields_code_block st
    = (Return blocks, st).
Proof.
  intros Hdict. unfold _create_message_blocks.
  destruct fields_code_block as [[[| item d] | text] |];
    try contradiction; eexists; reflexivity.
Qed.

(** C5, on the code.  In logging-only mode a code block passed as a
    string, which the Slack path accepts, makes [send_notification] return
    false, with nothing written to the notification log. *)
Theorem logging_mode_string_code_block_fails (rt : Runtime) :
  use_logging (logging_notifier 0 0) = true /\
  send_notification rt ERROR "job failed" None None (Some (CodeStr "Traceback"))
    (logging_notifier 0 0, empty_world)
  = (Return false, (logging_notifier 0 0, empty_world)).
Proof. split; reflexivity. Qed.

(** The Slack path takes the same string: with a transport that answers
    200 the call returns true. *)
Lemma remote_mode_string_code_block_sent :
  fst (send_notification (mock_runtime (post_status 200)) ERROR "job failed" None None
         (Some (CodeStr "Traceback")) (test_notifier 0 0, empty_world))
  = Return true.
Proof. vm_compute. reflexivity. Qed.

(** In logging-only mode the call returns true whenever the code blocks
    come as a dict or not at all. *)
Lemma logging_mode_returns_true (rt : Runtime) level message title fields
    (fields_code_block : option code_block_arg) (s : SlackNotifier) (w : World) :
  use_logging s = true ->
  match fields_code_block with Some (CodeStr (String _ _)) => False | _ => True end ->
  fst (send_notification rt level message title fields fields_code_block (s, w))
  = Return true.
Proof.
  intros Hmode Hdict.
  unfold send_notification, try_except.
  unfold bind at 1. unfold get_self at 1. cbn [fst snd]. rewrite Hmode.
  unfold _log_notification.
  assert (Hfmt : exists text,
             _format_code_blocks_for_logging fields_code_block = Return text).
  { destruct fields_code_block as [[[| item d] | [| c text]] |];
      try contradiction; eexists; reflexivity. }
  destruct Hfmt as [text ->].
  unfold bind, lift, notification_logger, update_world, ret.
  destruct level; cbn; reflexivity.
Qed.

(** ** Field groups *)

Lemma range_from_concat {A : Type} (l : list A) (fuel i : nat) :
  (List.length l <= fuel + i)%nat ->
  List.concat (map (fun j => Py.slice l j (j + 10)%nat)
              (Py.range_from fuel i (List.length l) 10))
  = skipn i l.
Proof.
  revert i. induction fuel as [| fuel IH]; intros i Hfuel; cbn [Py.range_from].
  - cbn. symmetry. apply skipn_all2. lia.
  - destruct (i <? List.length l)%nat eqn:Hlt.
    + cbn [map List.concat]. rewrite IH by lia.
      unfold Py.slice. replace (i + 10 - i)%nat with 10%nat by lia.
      replace (i + 10)%nat with (10 + i)%nat by lia.
      rewrite <- skipn_skipn. apply firstn_skipn.
    + apply Nat.ltb_ge in Hlt. cbn. symmetry. now apply skipn_all2.
Qed.

Lemma range_from_length (fuel i stop : nat) :
  (stop <= fuel + i)%nat ->
  List.length (Py.range_from fuel i stop 10) = ((stop - i + 9) / 10)%nat.
Proof.
  revert i. induction fuel as [| fuel IH]; intros i Hfuel; cbn [Py.range_from].
  - replace (stop - i)%nat with 0%nat by lia. reflexivity.
  - destruct (i <? stop)%nat eqn:Hlt.
    + apply Nat.ltb_lt in Hlt. cbn [List.length]. rewrite IH by lia.
      destruct (Nat.le_gt_cases (i + 10) stop) as [Hfar | Hnear].
      * replace (stop - i + 9)%nat with (stop - (i + 10) + 9 + 1 * 10)%nat by lia.
        rewrite Nat.div_add by lia. lia.
      * replace (stop - (i + 10))%nat with 0%nat by lia.
        change ((0 + 9) / 10)%nat with 0%nat.
        apply (Nat.div_unique _ _ 1 (stop - i - 1)); lia.
    + apply Nat.ltb_ge in Hlt.
      replace (stop - i)%nat with 0%nat by lia. reflexivity.
Qed.

Lemma range_from_bound (fuel i stop j : nat) :
  In j (Py.range_from fuel i stop 10) -> (j < stop)%nat.
Proof.
  revert i. induction fuel as [| fuel IH]; intros i; cbn [Py.range_from].
  - intros [].
  - destruct (i <? stop)%nat eqn:Hlt; [| intros []].
    apply Nat.ltb_lt in Hlt. intros [<- | Hin]; [assumption | eauto].
Qed.

(** The groups, laid end to end, are the fields in their order; there are
    [ceil(n / 10)] of them; each holds between 1 and 10 fields. *)
Lemma field_groups_spec (formatted : list text_object) :
  List.concat (field_groups formatted) = formatted /\
  List.length (field_groups formatted) = ((List.length formatted + 9) / 10)%nat /\
  Forall (fun group => (1 <= List.length group <= 10)%nat) (field_groups formatted).
Proof.
  unfold field_groups, Py.range. repeat apply conj.
  - rewrite range_from_concat by lia. reflexivity.
  - rewrite length_map, range_from_length by lia.
    replace (List.length formatted - 0)%nat with (List.length formatted) by lia.
    reflexivity.
  - apply Forall_forall. intros group Hin.
    apply in_map_iff in Hin. destruct Hin as (j & <- & Hj).
    apply range_from_bound in Hj.
    unfold Py.slice. replace (j + 10 - j)%nat with 10%nat by lia.
    rewrite length_firstn, length_skipn. lia.
Qed.

Lemma range_from_nth (fuel i stop k : nat) :
  (stop <= fuel + i)%nat -> (i + 10 * k < stop)%nat ->
  nth_error (Py.range_from fuel i stop 10) k = Some (i + 10 * k)%nat.
Proof.
  revert i k. induction fuel as [| fuel IH]; intros i k Hfuel Hk; [lia |].
  cbn [Py.range_from].
  replace (i <? stop)%nat with true by (symmetry; apply Nat.ltb_lt; lia).
  destruct k as [| k]; cbn [nth_error]; [f_equal; lia |].
  rewrite IH by lia. f_equal. lia.
Qed.

(** The field at offset [i] sits at position [i mod 10] of group
    [i / 10]. *)
Lemma field_groups_nth (formatted : list text_object) (i : nat) :
  (i < List.length formatted)%nat ->
  exists group,
    nth_error (field_groups formatted) (i / 10) = Some group /\
    nth_error group (i mod 10) = nth_error formatted i.
Proof.
  intros Hi. unfold field_groups, Py.range.
  pose proof (Nat.div_mod_eq i 10) as Hdiv.
  pose proof (Nat.mod_upper_bound i 10) as Hmod.
  rewrite nth_error_map, (range_from_nth _ 0 _ (i / 10)) by lia.
  eexists. split; [reflexivity |].
  unfold Py.slice. rewrite nth_error_firstn, nth_error_skipn.
  replace (i mod 10 <? 0 + 10 * (i / 10) + 10 - (0 + 10 * (i / 10)))%nat with true
    by (symmetry; apply Nat.ltb_lt; lia).
  f_equal. lia.
Qed.

Lemma field_groups_twelve (formatted : list text_object) :
  List.length formatted = 12%nat ->
  field_groups formatted = [firstn 10 formatted; skipn 10 formatted].
Proof.
  intros Hlen. unfold field_groups. rewrite Hlen.
  cbn [Py.range Py.range_from Nat.ltb Nat.leb Nat.add map].
  unfold Py.slice. cbn [Nat.sub Nat.add].
  f_equal. f_equal.
  apply firstn_all2. rewrite length_skipn. lia.
Qed.

Lemma field_group_blocks_app (l1 l2 : list block) :
  field_group_blocks (l1 ++ l2) = (field_group_blocks l1 ++ field_group_blocks l2)%list.
Proof.
  induction l1 as [| [t | t | group | els] l1 IH]; cbn; rewrite ?IH; reflexivity.
Qed.

Lemma field_group_blocks_sections (groups : list (list text_object)) :
  field_group_blocks (map section_fields groups) = groups.
Proof. induction groups as [| g groups IH]; cbn; rewrite ?IH; reflexivity. Qed.

Lemma field_group_blocks_code_sections (d : dict string) :
  field_group_blocks (code_sections d) = [].
Proof. induction d as [| [key value] d IH]; cbn; [reflexivity | exact IH]. Qed.

(** The field groups among the blocks of a message are the [field_groups]
    of its formatted fields. *)
Lemma create_message_blocks_groups (rt : Runtime) level message title
    (fields : dict field_value) fields_code_block (st st' : state)
    (blocks : list block) :
  _create_message_blocks rt level message title (Some fields) fields_code_block st
  = (Return blocks, st') ->
  field_group_blocks blocks = field_groups (formatted_fields fields).
Proof.
  unfold _create_message_blocks.
  set (head := Py.append _ (section_text _)).
  assert (Hhead : field_group_blocks head = []).
  { subst head. unfold Py.append. rewrite field_group_blocks_app.
    destruct title as [t |]; [destruct (Py.truthy (Some t)) |]; reflexivity. }
  set (body := match fields with [] => head | _ => _ end).
  assert (Hbody : field_group_blocks body = field_groups (formatted_fields fields)).
  { subst body. destruct fields as [| item rest]; [exact Hhead |].
    unfold Py.extend. rewrite field_group_blocks_app, Hhead.
    apply field_group_blocks_sections. }
  clearbody body. clear head Hhead.
  assert (Hfinish : forall bs, field_group_blocks bs = field_groups (formatted_fields fields) ->
            forall r, (bind (ret bs) (fun blocks0 =>
                         self <- get_self ;; w <- get_world ;;
                         ret (Py.append blocks0
                                (context [mrkdwn ("System: " ++ system_name self
                                                  ++ " | Sent at: " ++ strftime rt (now w))]))) st
                       = (Return r, st')) ->
            field_group_blocks r = field_groups (formatted_fields fields)).
  { intros bs Hbs r Hrun. cbn in Hrun. inversion Hrun; subst.
    unfold Py.append. rewrite field_group_blocks_app, Hbs. cbn.
    apply app_nil_r. }
  destruct fields_code_block as [[[| item d] | [| c text]] |];
    try (intros Hrun; eapply Hfinish; [| exact Hrun]; try exact Hbody;
         unfold Py.extend; rewrite field_group_blocks_app, Hbody,
           field_group_blocks_code_sections; apply app_nil_r).
  destruct (json_loads rt (String c text)) as [[d |] | e].
  - intros Hrun; eapply Hfinish; [| exact Hrun].
    unfold Py.extend. rewrite field_group_blocks_app, Hbody,
      field_group_blocks_code_sections. apply app_nil_r.
  - cbn. discriminate.
  - destruct e; try (cbn; discriminate).
    intros Hrun; eapply Hfinish; [| exact Hrun].
    unfold Py.append. rewrite field_group_blocks_app, Hbody. apply app_nil_r.
Qed.

(** C7.  In the blocks built for Slack from a [fields] dict of [n] entries,
    the field groups, laid end to end, are the entries of [fields] in their
    original order, each rendered as [*key:*], a line break and its value
    (the bulleted items of a nested dict); there are [ceil(n / 10)] groups;
    each holds at most 10 (and at least 1) fields; and for 12 entries there
    are exactly two groups, the first 10 fields and the last 2. *)
Theorem fields_split_in_groups_of_ten (rt : Runtime) (level : NotificationLevel)
    (message : string) (title : option string) (fields : dict field_value)
    (fields_code_block : option code_block_arg) (st st' : state)
    (blocks : list block) :
  _create_message_blocks rt level message title (Some fields) fields_code_block st
  = (Return blocks, st') ->
  let groups := field_group_blocks blocks in
  let render '(key, value) :=
    mrkdwn ("*" ++ key ++ ":*" ++ nl
            ++ match value with
               | Text v => v
               | Nested d => Py.join nl (map (fun '(k, v) => "• " ++ k ++ ": " ++ v) d)
               end) in
  List.concat groups = map render fields /\
  (forall i entry,
      nth_error fields i = Some entry ->
      exists group,
        nth_error groups (i / 10) = Some group /\
        nth_error group (i mod 10) = Some (render entry)) /\
  List.length groups = ((List.length fields + 9) / 10)%nat /\
  Forall (fun group => (1 <= List.length group <= 10)%nat) groups /\
  (List.length fields = 12%nat ->
   groups = [firstn 10 (map render fields); skipn 10 (map render fields)] /\
   List.length (firstn 10 (map render fields)) = 10%nat /\
   List.length (skipn 10 (map render fields)) = 2%nat).
Proof.
  intros Hrun groups render.
  assert (Hrendered : formatted_fields fields = map render fields) by reflexivity.
  subst groups.
  rewrite (create_message_blocks_groups _ _ _ _ _ _ _ _ _ Hrun).
  pose proof (field_groups_spec (formatted_fields fields)) as (Hconcat & Hlen & Hall).
  assert (Hfmt : List.length (formatted_fields fields) = List.length fields)
    by (unfold formatted_fields; apply length_map).
  rewrite Hfmt in Hlen.
  repeat apply conj; try assumption.
  - intros i entry Hentry.
    destruct (field_groups_nth (formatted_fields fields) i) as (group & Hgroup & Hitem).
    { rewrite Hfmt. apply nth_error_Some. congruence. }
    exists group. split; [exact Hgroup |].
    now rewrite Hitem, Hrendered, nth_error_map, Hentry.
  - intros H12. rewrite <- Hfmt in H12. rewrite <- Hrendered.
    repeat apply conj.
    + now apply field_groups_twelve.
    + rewrite length_firstn. lia.
    + rewrite length_skipn. lia.
Qed.

Lemma fields_split_in_groups_of_ten_witness :
  field_group_blocks
    (snd (List.last
            (posted (snd (snd (send_info (mock_runtime (post_status 200))
                                 "nightly import" (Some "Import")
                                 (Some (numbered_fields 12)) None
                                 (test_notifier 0 0, empty_world)))))
            (None, [])))
  = [[mrkdwn ("*k1:*" ++ nl ++ "v1");
     mrkdwn ("*k2:*" ++ nl ++ "v2");
     mrkdwn ("*k3:*" ++ nl ++ "v3");
     mrkdwn ("*k4:*" ++ nl ++ "v4");
     mrkdwn ("*k5:*" ++ nl ++ "v5");
     mrkdwn ("*k6:*" ++ nl ++ "v6");
     mrkdwn ("*k7:*" ++ nl ++ "v7");
     mrkdwn ("*k8:*" ++ nl ++ "v8");
     mrkdwn ("*k9:*" ++ nl ++ "v9");
     mrkdwn ("*k10:*" ++ nl ++ "v10")];
     [mrkdwn ("*k11:*" ++ nl ++ "v11");
     mrkdwn ("*k12:*" ++ nl ++ "v12")]].
Proof.
  refine (proj1 (proj2 (proj2 (proj2 (proj2
            (fields_split_in_groups_of_ten (mock_runtime (post_status 200)) INFO
               "nightly import" (Some "Import") (numbered_fields 12) None
               (test_notifier 0 0, empty_world) (test_notifier 0 0, empty_world)
               _ _)))) _)).
  - vm_compute. reflexivity.
  - reflexivity.
Defined.

(** ** Construction *)

Lemma init_test_notifier (total : Z) :
  __init__ (test_config total) empty_world
  = (Return (test_notifier total 0), one_handler_world).
Proof. reflexivity. Qed.

Lemma insert_sorted_perm (x : Z) (l : list Z) :
  Permutation (x :: l) (Py.insert_sorted x l).
Proof.
  induction l as [| y l IH]; cbn; [reflexivity |].
  destruct (x <? y); [reflexivity |].
  rewrite perm_swap. now constructor.
Qed.

Lemma sorted_perm (l : list Z) : Permutation l (Py.sorted l).
Proof.
  induction l as [| x l IH]; cbn; [constructor |].
  rewrite <- insert_sorted_perm. now constructor.
Qed.



Lemma int_raises (non_ascii : string -> option Z) (text : string) (e : exn) :
  Py.int non_ascii text = Raise e -> exists msg, e = ValueError msg.
Proof.
  unfold Py.int. intros Hint.
  repeat match type of Hint with
         | context [match ?x with _ => _ end] => destruct x
         | context [if ?b then _ else _] => destruct b
         | context [let '(_, _) := ?x in _] => destruct x
         end; inversion Hint; eauto.
Qed.

Lemma comprehension_int_raises (non_ascii : string -> option Z) (pieces : list string)
    (e : exn) :
  Py.comprehension (Py.int non_ascii) pieces = Raise e -> exists msg, e = ValueError msg.
Proof.
  induction pieces as [| piece rest IH]; cbn; [discriminate |].
  destruct (Py.int non_ascii piece) as [n | e'] eqn:Hint.
  - destruct (Py.comprehension (Py.int non_ascii) rest) as [ns | e'']; [discriminate |].
    intros H. inversion H. subst. now apply IH.
  - intros H. inversion H. subst. eapply int_raises. exact Hint.
Qed.







(** * Further properties *)

(** ** The gate as a search *)

Lemma for_notification_pct_find (pct : PyFloat.float) (pcts : list Z)
    (s : SlackNotifier) (w : World) :
  for_notification_pct pct pcts (s, w)
  = match find (crosses pct (last_notification_pct s)) pcts with
    | Some t => (Return true, (set_last_notification_pct t s, w))
    | None => (Return false, (s, w))
    end.
Proof.
  induction pcts as [| t rest IH]; [reflexivity |].
  cbn [for_notification_pct find]. unfold bind, get_self. cbn [fst snd].
  fold (crosses pct (last_notification_pct s) t).
  destruct (crosses pct (last_notification_pct s) t); [reflexivity | exact IH].
Qed.

Lemma gate_call_find (s : SlackNotifier) (w : World) (pct : PyFloat.float) :
  total_files s <> 0 ->
  current_pct s = Return pct ->
  gate_call (s, w)
  = match find (crosses pct (last_notification_pct s)) (notification_percentages s) with
    | Some t => (Fired t, (set_last_notification_pct t s, w))
    | None => (Quiet, (s, w))
    end.
Proof.
  intros Htotal Hpct.
  unfold gate_call, should_send_notification, bind, get_self, lift.
  cbn [fst snd].
  destruct (total_files s =? 0) eqn:H0; [lia |].
  rewrite Hpct, for_notification_pct_find.
  destruct (find _ _); reflexivity.
Qed.

(** X1.  When [total_files] is not zero and the percentage is computed, the
    gate fires the first threshold, in list order, that the percentage has
    reached and that is above [last_notification_pct], and stores it; it
    returns false, changing nothing, exactly when the list holds no such
    threshold. *)
Theorem gate_fires_first_match (s : SlackNotifier) (w : World) (pct : PyFloat.float) :
  total_files s <> 0 ->
  current_pct s = Return pct ->
  (forall t,
      find (crosses pct (last_notification_pct s)) (notification_percentages s) = Some t ->
      gate_call (s, w) = (Fired t, (set_last_notification_pct t s, w)) /\
      In t (notification_percentages s) /\
      PyFloat.ge_int pct t = true /\ last_notification_pct s < t) /\
  (find (crosses pct (last_notification_pct s)) (notification_percentages s) = None ->
   gate_call (s, w) = (Quiet, (s, w)) /\
   Forall (fun t => PyFloat.ge_int pct t = false \/ t <= last_notification_pct s)
     (notification_percentages s)).
Proof.
  intros Htotal Hpct.
  rewrite (gate_call_find s w pct Htotal Hpct).
  split.
  - intros t Hfind. rewrite Hfind. split; [reflexivity |].
    apply find_some in Hfind. destruct Hfind as [Hin Hcross].
    unfold crosses in Hcross. apply andb_true_iff in Hcross.
    destruct Hcross as [Hge Hgt]. repeat split; [assumption .. | lia].
  - intros Hfind. rewrite Hfind. split; [reflexivity |].
    apply Forall_forall. intros t Hin.
    pose proof (find_none _ _ Hfind t Hin) as Hcross. cbv beta in Hcross.
    unfold crosses in Hcross. apply andb_false_iff in Hcross.
    destruct Hcross as [Hge | Hgt]; [now left | right; lia].
Qed.

Lemma gate_fires_first_match_witness :
  gate_call (test_notifier 100 20, empty_world)
  = (Fired 20, (set_last_notification_pct 20 (test_notifier 100 20), empty_world)).
Proof.
  apply (gate_fires_first_match (test_notifier 100 20) empty_world
           (S754_finite false 5629499534213120 (-48)));
    [cbn; lia | vm_compute; reflexivity | vm_compute; reflexivity].
Defined.

Lemma fired_incl (s : SlackNotifier) (events : list gate_event) :
  Forall (event_justified s) events -> incl (fired events) (notification_percentages s).
Proof.
  induction 1 as [| ev events Hev _ IH]; cbn [fired]; [intros t [] |].
  unfold event_justified in Hev.
  destruct (outcome ev) as [t | | e]; try exact IH.
  intros t' [<- | Hin]; [apply Hev | now apply IH].
Qed.

(** X2.  Over a whole run of the gate, whatever the progress sequence, the
    number of calls that return true is at most the number of thresholds. *)
Theorem fired_count_bounded (s : SlackNotifier) (w : World) (progress : list Z) :
  (List.length (fired (drive_gate (s, w) progress))
   <= List.length (notification_percentages s))%nat.
Proof.
  apply NoDup_incl_length.
  - apply strongly_sorted_lt_nodup.
    pose proof (drive_gate_fired_sorted progress (s, w)) as Hsorted.
    now inversion Hsorted.
  - apply fired_incl. now apply drive_gate_justified.
Qed.

(** A float that is at least [t] is at least every smaller integer. *)
Lemma ge_int_mono (pct : PyFloat.float) (t t' : Z) :
  t' <= t -> PyFloat.ge_int pct t = true -> PyFloat.ge_int pct t' = true.
Proof.
  intros Hle. unfold PyFloat.ge_int, PyFloat.compare_int.
  destruct pct as [sg | sg | | sg m e]; try (intros; assumption).
  - destruct (Z.compare_spec 0 t), (Z.compare_spec 0 t');
      intros; reflexivity || discriminate || lia.
  - destruct e as [| p | p].
    + destruct (Z.compare_spec (cond_Zopp sg (Z.pos m) * 2 ^ 0) t),
        (Z.compare_spec (cond_Zopp sg (Z.pos m) * 2 ^ 0) t');
        intros; reflexivity || discriminate || lia.
    + destruct (Z.compare_spec (cond_Zopp sg (Z.pos m) * 2 ^ Z.pos p) t),
        (Z.compare_spec (cond_Zopp sg (Z.pos m) * 2 ^ Z.pos p) t');
        intros; reflexivity || discriminate || lia.
    + assert (Hpow : 0 < 2 ^ Z.pos p) by (apply Z.pow_pos_nonneg; lia).
      destruct (Z.compare_spec (cond_Zopp sg (Z.pos m)) (t * 2 ^ Z.pos p)),
        (Z.compare_spec (cond_Zopp sg (Z.pos m)) (t' * 2 ^ Z.pos p));
        intros; reflexivity || discriminate || nia.
Qed.

Lemma find_first {A : Type} (p : A -> bool) (l : list A) (x : A) :
  find p l = Some x ->
  exists l1 l2, l = (l1 ++ x :: l2)%list /\ p x = true /\ Forall (fun y => p y = false) l1.
Proof.
  induction l as [| y l IH]; cbn [find]; [discriminate |].
  destruct (p y) eqn:Hy.
  - intros H. inversion H. subst. exists [], l. repeat split; [assumption | constructor].
  - intros H. destruct (IH H) as (l1 & l2 & -> & Hx & Hall).
    exists (y :: l1), l2. repeat split; [assumption | now constructor].
Qed.

Lemma strongly_sorted_app_tail {A : Type} (R : A -> A -> Prop) (l1 l2 : list A) :
  StronglySorted R (l1 ++ l2) -> StronglySorted R l2.
Proof.
  induction l1 as [| x l1 IH]; cbn; [auto |].
  intros H. inversion H. auto.
Qed.

(** X3.  With the thresholds in ascending order, as the constructor leaves
    them, the gate skips nothing: when it fires [t], no threshold of the
    list lies strictly between the old [last_notification_pct] and [t]. *)
Theorem sorted_gate_skips_nothing (s : SlackNotifier) (w : World) (t t' : Z)
    (st' : state) :
  StronglySorted Z.le (notification_percentages s) ->
  gate_call (s, w) = (Fired t, st') ->
  In t' (notification_percentages s) ->
  ~ (last_notification_pct s < t' < t).
Proof.
  intros Hsorted Hcall Hin Hbetween.
  destruct (gate_call_cases s w)
    as [(t0 & pct & Hrun & _ & _ & Htotal & Hpct & _) | [Hrun | (msg & _ & Hrun)]];
    rewrite Hrun in Hcall; inversion Hcall; subst; clear Hcall.
  rewrite (gate_call_find s w pct Htotal Hpct) in Hrun.
  destruct (find _ _) as [t1 |] eqn:Hfind; inversion Hrun; subst; clear Hrun.
  destruct (find_first _ _ _ Hfind) as (l1 & l2 & Hsplit & Hcross & Hbefore).
  rewrite Hsplit in Hsorted, Hin.
  apply in_app_or in Hin. destruct Hin as [Hin | [-> | Hin]].
  - rewrite Forall_forall in Hbefore. specialize (Hbefore t' Hin).
    unfold crosses in Hbefore, Hcross.
    apply andb_true_iff in Hcross. destruct Hcross as [Hge _].
    rewrite (ge_int_mono pct t t') in Hbefore by (lia || assumption).
    cbn [andb] in Hbefore. lia.
  - lia.
  - apply strongly_sorted_app_tail in Hsorted.
    inversion Hsorted as [| ? ? _ Hall]; subst.
    rewrite Forall_forall in Hall. specialize (Hall t' Hin). lia.
Qed.

Lemma sorted_gate_skips_nothing_witness :
  ~ (last_notification_pct (test_notifier 50 50) < 100 < 20).
Proof.
  apply (sorted_gate_skips_nothing (test_notifier 50 50) empty_world 20 100
           (set_last_notification_pct 20 (test_notifier 50 50), empty_world)).
  - repeat constructor; lia.
  - vm_compute. reflexivity.
  - cbn. auto.
Defined.

(** ** Repeated calls *)

Lemma find_filter {A : Type} (p : A -> bool) (l : list A) :
  find p l = hd_error (filter p l).
Proof.
  induction l as [| x l IH]; cbn; [reflexivity |].
  destruct (p x); [reflexivity | exact IH].
Qed.

(** In a strictly ascending list, once the first pending threshold has
    fired the pending ones are the rest of them. *)
Lemma pending_after_fire (pct : PyFloat.float) (last t : Z) (l rest : list Z) :
  StronglySorted Z.lt l ->
  filter (crosses pct last) l = t :: rest ->
  filter (crosses pct t) l = rest.
Proof.
  induction 1 as [| x l Hs IH Hall]; cbn [filter]; [discriminate |].
  destruct (crosses pct last x) eqn:Hx.
  - intros H. inversion H. subst x rest. clear H.
    unfold crosses in Hx. apply andb_true_iff in Hx. destruct Hx as [_ Hgt].
    replace (crosses pct t t) with false
      by (unfold crosses; replace (t >? t) with false by lia; now rewrite andb_false_r).
    apply filter_ext_in. intros y Hy.
    rewrite Forall_forall in Hall. specialize (Hall y Hy).
    unfold crosses. replace (y >? t) with true by lia.
    replace (y >? last) with true by lia. reflexivity.
  - intros H. specialize (IH H).
    assert (Hin : In t l).
    { assert (Hin' : In t (filter (crosses pct last) l)) by (rewrite H; now left).
      apply filter_In in Hin'. tauto. }
    rewrite Forall_forall in Hall. specialize (Hall t Hin).
    replace (crosses pct t x) with false; [exact IH |].
    unfold crosses. replace (x >? t) with false by lia. now rewrite andb_false_r.
Qed.

Lemma repeated_calls_pending (p : Z) (pct : PyFloat.float) (n : nat)
    (s : SlackNotifier) (w : World) :
  StronglySorted Z.lt (notification_percentages s) ->
  total_files s <> 0 ->
  current_pct (set_processed_files p s) = Return pct ->
  (List.length (filter (crosses pct (last_notification_pct s))
                  (notification_percentages s)) <= n)%nat ->
  fired (drive_gate (s, w) (repeat p n))
  = filter (crosses pct (last_notification_pct s)) (notification_percentages s).
Proof.
  revert s. induction n as [| n IH]; intros s Hsorted Htotal Hpct Hlen.
  - destruct (filter _ _); [reflexivity | cbn in Hlen; lia].
  - cbn [repeat drive_gate fst snd].
    rewrite (gate_call_find (set_processed_files p s) w pct)
      by (cbn; assumption).
    rewrite find_filter.
    cbn [notification_percentages last_notification_pct set_processed_files].
    destruct (filter (crosses pct (last_notification_pct s))
                (notification_percentages s)) as [| t rest] eqn:Hpending;
      cbn [hd_error fired outcome].
    + specialize (IH (set_processed_files p s)). cbn in IH.
      rewrite Hpending in IH. apply IH; try assumption. cbn. lia.
    + specialize (IH (set_last_notification_pct t (set_processed_files p s))).
      cbn in IH.
      rewrite (pending_after_fire pct (last_notification_pct s) t _ rest) in IH
        by assumption.
      rewrite IH; try assumption; [reflexivity | cbn in Hlen; lia].
Qed.

(** X4.  With strictly ascending thresholds, calling the gate again and
    again at an unchanged progress fires, one per call and lowest first,
    exactly the thresholds that the percentage has reached and that are
    above [last_notification_pct]; the remaining calls return false. *)
Theorem repeated_calls_fire_pending (p : Z) (pct : PyFloat.float) (n : nat)
    (s : SlackNotifier) (w : World) :
  StronglySorted Z.lt (notification_percentages s) ->
  total_files s <> 0 ->
  current_pct (set_processed_files p s) = Return pct ->
  (List.length (notification_percentages s) <= n)%nat ->
  fired (drive_gate (s, w) (repeat p n))
  = filter (crosses pct (last_notification_pct s)) (notification_percentages s).
Proof.
  intros Hsorted Htotal Hpct Hlen.
  apply repeated_calls_pending; try assumption.
  etransitivity; [apply filter_length_le | exact Hlen].
Qed.

Lemma repeated_calls_fire_pending_witness :
  fired (drive_gate (test_notifier 10 0, empty_world) (repeat 7 3)) = [20].
Proof.
  apply (repeated_calls_fire_pending 7 (S754_finite false 4925812092436480 (-46)) 3
           (test_notifier 10 0) empty_world).
  - repeat constructor; lia.
  - cbn. lia.
  - vm_compute. reflexivity.
  - cbn. lia.
Defined.

(** [100.0] is at least [t] exactly when [t] is at most 100. *)
Lemma ge_int_f100 (t : Z) : PyFloat.ge_int PyFloat.f100 t = (t <=? 100).
Proof.
  unfold PyFloat.ge_int, PyFloat.compare_int, PyFloat.f100. cbn [cond_Zopp].
  change (2 ^ 46) with 70368744177664.
  destruct (Z.compare_spec 7036874417766400 (t * 70368744177664));
    destruct (t <=? 100) eqn:Ht; reflexivity || lia.
Qed.

(** X5.  At full progress ([processed_files] equal to a non-zero
    [total_files]) and with strictly ascending thresholds, repeated calls
    of the gate fire every threshold above [last_notification_pct] and up to
    100, lowest first; a threshold above 100 does not fire. *)
Theorem full_progress_fires_up_to_100 (n : nat) (s : SlackNotifier) (w : World) :
  StronglySorted Z.lt (notification_percentages s) ->
  total_files s <> 0 ->
  (List.length (notification_percentages s) <= n)%nat ->
  fired (drive_gate (s, w) (repeat (total_files s) n))
  = filter (fun t => (t <=? 100) && (t >? last_notification_pct s))
      (notification_percentages s).
Proof.
  intros Hsorted Htotal Hlen.
  rewrite (repeated_calls_pending (total_files s) PyFloat.f100 n s w);
    try assumption.
  - apply filter_ext. intros t. unfold crosses. now rewrite ge_int_f100.
  - apply current_pct_full; cbn; auto.
  - etransitivity; [apply filter_length_le | exact Hlen].
Qed.

Lemma full_progress_fires_up_to_100_witness :
  fired (drive_gate
           (mkSlackNotifier None true "TestSystem" "notifications.log"
              [20; 100; 150] 0 0 8 0 0, empty_world) (repeat 8 5))
  = [20; 100].
Proof.
  apply (full_progress_fires_up_to_100 5
           (mkSlackNotifier None true "TestSystem" "notifications.log"
              [20; 100; 150] 0 0 8 0 0) empty_world).
  - repeat constructor; lia.
  - cbn. lia.
  - cbn. lia.
Defined.

Lemma init_counters (c : Config) (w w' : World) (s : SlackNotifier) :
  __init__ c w = (Return s, w') ->
  last_notification_pct s = 0 /\ processed_files s = 0 /\ error_files s = 0 /\
  total_files s = arg_total_files c /\ start_time s = arg_start_time c.
Proof.
  unfold __init__, add_notification_handler.
  destruct (open_log c (resolved_log_path c)) as [[] | e0]; [| discriminate].
  destruct (Py.comprehension _ _) as [pcts | e]; [| discriminate].
  destruct (negb _); intros H; inversion H; subst; cbn; repeat split.
Qed.

(** X6.  For a notifier as the constructor returns it, every threshold
    that fires in a run of the gate is positive: a threshold of 0 or below,
    which the constructor accepts, never fires. *)
Theorem constructed_fires_positive_only (c : Config) (w0 w1 w : World)
    (s : SlackNotifier) (progress : list Z) :
  __init__ c w0 = (Return s, w1) ->
  Forall (fun t => 0 < t) (fired (drive_gate (s, w) progress)).
Proof.
  intros Hinit. apply init_counters in Hinit. destruct Hinit as (Hlast & _).
  pose proof (drive_gate_fired_sorted progress (s, w)) as Hsorted.
  cbn [fst] in Hsorted. rewrite Hlast in Hsorted.
  now inversion Hsorted.
Qed.

Lemma constructed_fires_positive_only_witness :
  Forall (fun t => 0 < t)
    (fired (drive_gate (test_notifier 100 0, empty_world) [10; 20; 100; 100])).
Proof.
  apply (constructed_fires_positive_only (test_config 100) empty_world
           one_handler_world empty_world (test_notifier 100 0) [10; 20; 100; 100]).
  reflexivity.
Defined.

Lemma find_none_all {A : Type} (p : A -> bool) (l : list A) :
  (forall x, In x l -> p x = false) -> find p l = None.
Proof.
  induction l as [| x l IH]; intros Hall; cbn; [reflexivity |].
  rewrite (Hall x) by now left. apply IH. intros y Hy. apply Hall. now right.
Qed.

(** X7.  With no file processed yet and [last_notification_pct] not
    negative, the gate returns false and changes nothing, whatever the
    thresholds and the total. *)
Theorem zero_progress_quiet (s : SlackNotifier) (w : World) :
  processed_files s = 0 ->
  0 <= last_notification_pct s ->
  gate_call (s, w) = (Quiet, (s, w)).
Proof.
  intros Hzero Hlast.
  destruct (Z.eq_dec (total_files s) 0) as [Htotal | Htotal].
  - unfold gate_call, should_send_notification, bind, get_self. cbn [fst snd].
    rewrite Htotal. reflexivity.
  - assert (Hpct : current_pct s = Return (S754_zero (total_files s <? 0))).
    { unfold current_pct, PyFloat.truediv_int. rewrite Hzero.
      destruct (total_files s =? 0) eqn:H0; [lia |].
      cbn. destruct (total_files s <? 0); reflexivity. }
    rewrite (gate_call_find s w _ Htotal Hpct).
    rewrite find_none_all; [reflexivity |]. intros t _.
    unfold crosses, PyFloat.ge_int, PyFloat.compare_int.
    destruct (Z.compare_spec 0 t); cbn [andb]; lia.
Qed.

Lemma zero_progress_quiet_witness :
  gate_call (test_notifier 100 0, empty_world)
  = (Quiet, (test_notifier 100 0, empty_world)).
Proof.
  apply (zero_progress_quiet (test_notifier 100 0) empty_world); cbn; lia.
Defined.

(** ** Delivery, both modes *)

(** X10.  In remote mode, once the blocks are built, a response whose
    status is outside 400 to 599 makes [send_notification] return true; the
    one request is recorded and nothing is written to either log. *)
Theorem remote_success_returns_true (rt : Runtime) (s : SlackNotifier) (w : World)
    (level : NotificationLevel) (message : string) (title : option string)
    (fields : option (dict field_value)) (fields_code_block : option code_block_arg)
    (blocks : list block) (response : Response) :
  use_logging s = false ->
  _create_message_blocks rt level message title fields fields_code_block (s, w)
  = (Return blocks, (s, w)) ->
  requests_post rt (webhook_url s) blocks = Return response ->
  ~ (400 <= status_code response < 600) ->
  send_notification rt level message title fields fields_code_block (s, w)
  = (Return true,
     (s, mkWorld (now w) (notification_log w) (root_log w)
           (Py.append (posted w) (webhook_url s, blocks)))).
Proof.
  intros Hmode Hblocks Hpost Hstatus.
  unfold send_notification, try_except.
  unfold bind at 1. unfold get_self at 1. cbn [fst snd].
  rewrite Hmode.
  unfold bind at 1. rewrite Hblocks.
  unfold bind at 1. unfold _send_to_slack.
  unfold bind at 1. unfold get_self at 1. cbn [fst snd].
  unfold bind at 1. unfold update_world at 1. cbn [fst snd].
  unfold lift at 1. rewrite Hpost.
  unfold bind, lift, raise_for_status, ret.
  replace ((400 <=? status_code response) && (status_code response <? 500))
    with false by lia.
  replace ((500 <=? status_code response) && (status_code response <? 600))
    with false by lia.
  reflexivity.
Qed.

Lemma remote_success_returns_true_witness :
  send_notification (mock_runtime (post_status 200)) SUCCESS "import finished"
    None None None (test_notifier 0 0, empty_world)
  = (Return true,
     (test_notifier 0 0,
      mkWorld 0 [] []
        [(Some "https://hooks.slack.com/services/TEST",
          [section_text (mrkdwn (level_value SUCCESS ++ " *SUCCESS*" ++ nl
                                 ++ "import finished"));
           context [mrkdwn "System: TestSystem | Sent at: ?"]])])).
Proof.
  apply (remote_success_returns_true (mock_runtime (post_status 200))
           (test_notifier 0 0) empty_world SUCCESS "import finished" None None None
           _ (mkResponse 200 "" "https://hooks.slack.com/services/TEST")).
  - reflexivity.
  - reflexivity.
  - reflexivity.
  - cbn. lia.
Defined.

Lemma logging_mode_world (rt : Runtime) (s : SlackNotifier) (w : World)
    (level : NotificationLevel) (message : string) (title : option string)
    (fields : option (dict field_value)) (fields_code_block : option code_block_arg) :
  use_logging s = true ->
  let w' := snd (snd (send_notification rt level message title fields
                        fields_code_block (s, w))) in
  posted w' = posted w /\ root_log w' = root_log w /\ now w' = now w /\
  (notification_log w' = notification_log w \/
   exists levelname text,
     notification_log w'
     = Py.extend (notification_log w)
         (map (fun path => Wrote path levelname text)
              (handlers (notification_log w)))).
Proof.
  intros Hmode w'.
  remember (send_notification rt level message title fields fields_code_block (s, w))
    as r eqn:Hr.
  unfold send_notification, try_except in Hr.
  unfold bind at 1 in Hr. unfold get_self at 1 in Hr. cbn [fst snd] in Hr.
  rewrite Hmode in Hr. unfold _log_notification in Hr.
  destruct (_format_code_blocks_for_logging fields_code_block) as [text | e];
    unfold bind, lift, get_self in Hr; cbn [fst snd] in Hr; rewrite ?Hmode in Hr.
  - destruct level; cbn in Hr; subst w' r; cbn;
      repeat apply conj; try reflexivity;
      (now left) || (right; eexists; eexists; reflexivity).
  - subst w' r. cbn. repeat apply conj; try reflexivity. now left.
Qed.

(** X11.  In logging-only mode [send_notification] stays local on every
    input: it hands nothing to the transport and writes nothing to the root
    logger, also when it fails and returns false; on the notification
    logger it attaches nothing and has at most one record written by each
    handler attached, the same record for all. *)
Theorem logging_mode_stays_local (rt : Runtime) (s : SlackNotifier) (w : World)
    (level : NotificationLevel) (message : string) (title : option string)
    (fields : option (dict field_value)) (fields_code_block : option code_block_arg) :
  use_logging s = true ->
  let w' := snd (snd (send_notification rt level message title fields
                        fields_code_block (s, w))) in
  posted w' = posted w /\ root_log w' = root_log w /\ now w' = now w /\
  (notification_log w' = notification_log w \/
   exists levelname text,
     notification_log w'
     = Py.extend (notification_log w)
         (map (fun path => Wrote path levelname text)
              (handlers (notification_log w)))).
Proof. apply logging_mode_world. Qed.

Lemma logging_mode_stays_local_witness :
  let w' := snd (snd (send_notification (mock_runtime post_refused) ERROR "job failed"
                        None None (Some (CodeStr "Traceback"))
                        (logging_notifier 0 0, one_handler_world))) in
  posted w' = [] /\ root_log w' = [] /\ now w' = 0 /\
  (notification_log w' = [Attached "notifications.log"] \/
   exists levelname text,
     notification_log w'
     = Py.extend [Attached "notifications.log"]
         (map (fun path => Wrote path levelname text) ["notifications.log"])).
Proof.
  apply (logging_mode_stays_local (mock_runtime post_refused) (logging_notifier 0 0)
           one_handler_world ERROR "job failed" None None (Some (CodeStr "Traceback"))).
  reflexivity.
Defined.





(** X13.  In remote mode [send_notification] never writes to the
    notification log, and the root logger tells the outcome: returning true
    goes with no new line, and returning false with exactly one,
    [Failed to send notification: ...] with the text of the exception that
    made the delivery fail: the one raised while the blocks were built, or
    by the POST of those blocks to the webhook, or by the status check of
    its response. *)
Theorem remote_failure_logged_once (rt : Runtime) (s : SlackNotifier) (w : World)
    (level : NotificationLevel) (message : string) (title : option string)
    (fields : option (dict field_value)) (fields_code_block : option code_block_arg) :
  use_logging s = false ->
  exists (sent : bool) (w' : World),
    send_notification rt level message title fields fields_code_block (s, w)
    = (Return sent, (s, w')) /\
    notification_log w' = notification_log w /\
    now w' = now w /\
    if sent then root_log w' = root_log w
    else exists e,
        root_log w'
        = Py.append (root_log w) ("Failed to send notification: " ++ exn_str e) /\
        match fst (_create_message_blocks rt level message title fields
                     fields_code_block (s, w)) with
        | Raise e' => e' = e
        | Return blocks =>
            match requests_post rt (webhook_url s) blocks with
            | Raise e' => e' = e
            | Return response => raise_for_status response = Raise e
            end
        end.
Proof.
  intros Hmode.
  remember (send_notification rt level message title fields fields_code_block (s, w))
    as r eqn:Hr.
  unfold send_notification, try_except in Hr.
  unfold bind at 1 in Hr. unfold get_self at 1 in Hr. cbn [fst snd] in Hr.
  rewrite Hmode in Hr.
  pose proof (create_message_blocks_state rt level message title fields
                fields_code_block (s, w)) as Hstate.
  unfold bind at 1 in Hr.
  destruct (_create_message_blocks rt level message title fields
              fields_code_block (s, w)) as [[blocks | e] st1];
    cbn [snd] in Hstate; subst st1; cbn [fst].
  - unfold _send_to_slack, bind, get_self, update_world, lift in Hr.
    cbn [fst snd] in Hr.
    destruct (requests_post rt (webhook_url s) blocks) as [response | e].
    + destruct (raise_for_status response) as [[] | e];
        cbn [fst snd] in Hr; rewrite ?Hmode in Hr; subst r.
      * exists true. eexists. repeat apply conj; reflexivity.
      * exists false. eexists. repeat apply conj; try reflexivity.
        exists e. split; reflexivity.
    + cbn [fst snd] in Hr. rewrite Hmode in Hr. subst r.
      exists false. eexists. repeat apply conj; try reflexivity.
      exists e. split; reflexivity.
  - unfold bind, get_self in Hr. cbn [fst snd] in Hr. rewrite Hmode in Hr. subst r.
    exists false. eexists. repeat apply conj; try reflexivity.
    exists e. split; reflexivity.
Qed.

Lemma remote_failure_logged_once_witness :
  exists (sent : bool) (w' : World),
    send_notification (mock_runtime (post_status 500)) INFO "done" None None None
      (test_notifier 0 0, empty_world)
    = (Return sent, (test_notifier 0 0, w')) /\
    notification_log w' = [] /\
    now w' = 0 /\
    if sent then root_log w' = []
    else exists e,
        root_log w' = Py.append [] ("Failed to send notification: " ++ exn_str e) /\
        match fst (_create_message_blocks (mock_runtime (post_status 500)) INFO "done"
                     None None None (test_notifier 0 0, empty_world)) with
        | Raise e' => e' = e
        | Return blocks =>
            match requests_post (mock_runtime (post_status 500))
                    (webhook_url (test_notifier 0 0)) blocks with
            | Raise e' => e' = e
            | Return response => raise_for_status response = Raise e
            end
        end.
Proof.
  apply (remote_failure_logged_once (mock_runtime (post_status 500))
           (test_notifier 0 0) empty_world INFO "done" None None None).
  reflexivity.
Defined.

(** ** The blocks of a message *)

Lemma last_append {A : Type} (l : list A) (x d : A) : List.last (Py.append l x) d = x.
Proof. unfold Py.append. apply last_last. Qed.

(** X15.  Whenever the blocks of a message are built, the last block is
    the footer with the system name and the send time, and the first block
    is the header when a non-empty title is given and the message section
    otherwise; building them changes nothing. *)
Theorem blocks_open_and_close (rt : Runtime) (level : NotificationLevel)
    (message : string) (title : option string) (fields : option (dict field_value))
    (fields_code_block : option code_block_arg) (s : SlackNotifier) (w : World)
    (st' : state) (blocks : list block) :
  _create_message_blocks rt level message title fields fields_code_block (s, w)
  = (Return blocks, st') ->
  st' = (s, w) /\
  List.last blocks (header (plain_text ""))
  = context [mrkdwn ("System: " ++ system_name s ++ " | Sent at: "
                     ++ strftime rt (now w))] /\
  hd_error blocks
  = Some (match title with
          | Some t =>
              if Py.truthy title then header (plain_text t)
              else section_text (mrkdwn (level_value level ++ " *" ++ level_name level
                                         ++ "*" ++ nl ++ message))
          | None =>
              section_text (mrkdwn (level_value level ++ " *" ++ level_name level
                                    ++ "*" ++ nl ++ message))
          end).
Proof.
  intros Hrun.
  pose proof (create_message_blocks_state rt level message title fields
                fields_code_block (s, w)) as Hstate.
  rewrite Hrun in Hstate. cbn [snd] in Hstate. subst st'.
  split; [reflexivity |].
  unfold _create_message_blocks in Hrun.
  set (main := section_text _) in Hrun.
  set (head := Py.append _ main) in Hrun.
  assert (Hhead : exists rest, head = (match title with
                                        | Some t => if Py.truthy title
                                                    then header (plain_text t) else main
                                        | None => main
                                        end) :: rest).
  { subst head. unfold Py.append.
    destruct title as [t |]; [destruct (Py.truthy (Some t)) |];
      eexists; reflexivity. }
  destruct Hhead as [rest Hhead].
  set (body := match fields with None | Some [] => head | Some _ => _ end) in Hrun.
  assert (Hbody : exists rest', body = (match title with
                                        | Some t => if Py.truthy title
                                                    then header (plain_text t) else main
                                        | None => main
                                        end) :: rest').
  { subst body. rewrite Hhead.
    destruct fields as [[| item items] |]; unfold Py.extend; eexists; reflexivity. }
  destruct Hbody as [rest' Hbody]. clearbody body. clear head Hhead rest.
  assert (Hfinish : forall bs rest'',
             bs = (match title with
                   | Some t => if Py.truthy title then header (plain_text t) else main
                   | None => main
                   end) :: rest'' ->
             (bind (ret bs) (fun blocks0 =>
                self <- get_self ;; w0 <- get_world ;;
                ret (Py.append blocks0
                       (context [mrkdwn ("System: " ++ system_name self
                                         ++ " | Sent at: " ++ strftime rt (now w0))])))
                (s, w) = (Return blocks, (s, w))) ->
             List.last blocks (header (plain_text ""))
             = context [mrkdwn ("System: " ++ system_name s ++ " | Sent at: "
                                ++ strftime rt (now w))] /\
             hd_error blocks
             = Some (match title with
                     | Some t => if Py.truthy title then header (plain_text t) else main
                     | None => main
                     end)).
  { intros bs rest'' -> Hfin. clear Hrun.
    unfold bind, ret, get_self, get_world in Hfin. cbn [fst snd] in Hfin.
    inversion Hfin; subst blocks.
    split; [apply last_append | reflexivity]. }
  destruct fields_code_block as [[[| item d] | [| c text]] |];
    try (eapply Hfinish; [| exact Hrun]; try exact Hbody;
         rewrite Hbody; unfold Py.extend; reflexivity).
  destruct (json_loads rt (String c text)) as [[d | type_name] | e].
  - eapply Hfinish; [| exact Hrun]. rewrite Hbody. unfold Py.extend. reflexivity.
  - cbn in Hrun. discriminate.
  - destruct e; try (cbn in Hrun; discriminate).
    eapply Hfinish; [| exact Hrun]. rewrite Hbody. unfold Py.append. reflexivity.
Qed.

Lemma blocks_open_and_close_witness :
  hd_error
    (snd (List.last
            (posted (snd (snd (send_error (mock_runtime (post_status 200))
                                 "disk full" (Some "Backup") None None
                                 (test_notifier 0 0, empty_world)))))
            (None, [])))
  = Some (header (plain_text "Backup")).
Proof.
  apply (blocks_open_and_close (mock_runtime (post_status 200)) ERROR "disk full"
           (Some "Backup") None None (test_notifier 0 0) empty_world
           (test_notifier 0 0, empty_world)).
  reflexivity.
Defined.

(** X16.  A code block given as a string that [json.loads] reads as an
    object is rendered exactly as the dict of that object's items. *)
Theorem json_object_string_like_dict (rt : Runtime) (level : NotificationLevel)
    (message : string) (title : option string) (fields : option (dict field_value))
    (text : string) (d : dict string) (st : state) :
  text <> "" ->
  json_loads rt text = Return (JsonObject d) ->
  _create_message_blocks rt level message title fields (Some (CodeStr text)) st
  = _create_message_blocks rt level message title fields (Some (CodeDict d)) st.
Proof.
  intros Htext Hjson. unfold _create_message_blocks.
  destruct text as [| c text]; [contradiction |].
  rewrite Hjson.
  destruct d as [| item d]; [| reflexivity].
  unfold Py.extend, code_sections. cbn [map]. now rewrite app_nil_r.
Qed.

Lemma json_object_string_like_dict_witness :
  _create_message_blocks (mkRuntime post_refused json_object (fun _ _ => "?") (fun _ => "?"))
    INFO "build" None None (Some (CodeStr "payload")) (test_notifier 0 0, empty_world)
  = _create_message_blocks (mkRuntime post_refused json_object (fun _ _ => "?") (fun _ => "?"))
      INFO "build" None None (Some (CodeDict [("cmd", "make")]))
      (test_notifier 0 0, empty_world).
Proof.
  apply (json_object_string_like_dict
           (mkRuntime post_refused json_object (fun _ _ => "?") (fun _ => "?"))).
  - discriminate.
  - reflexivity.
Defined.

(** X17.  A non-empty code-block string that [json.loads] rejects with
    [JSONDecodeError] does not fail the message: the blocks are those of the
    message without code blocks, with one more section before the footer
    holding the whole string in a code fence. *)
Theorem raw_string_code_block (rt : Runtime) (level : NotificationLevel)
    (message : string) (title : option string) (fields : option (dict field_value))
    (text msg : string) (st : state) :
  text <> "" ->
  json_loads rt text = Raise (JSONDecodeError msg) ->
  exists body footer,
    _create_message_blocks rt level message title fields None st
    = (Return (Py.append body footer), st) /\
    _create_message_blocks rt level message title fields (Some (CodeStr text)) st
    = (Return (Py.append (Py.append body (section_text (mrkdwn ("```" ++ text ++ "```"))))
                 footer), st).
Proof.
  intros Htext Hjson. unfold _create_message_blocks.
  destruct text as [| c text]; [contradiction |].
  rewrite Hjson.
  eexists. eexists. split; reflexivity.
Qed.

Lemma raw_string_code_block_witness :
  exists body footer,
    _create_message_blocks (mock_runtime post_refused) ERROR "job failed" None None None
      (test_notifier 0 0, empty_world)
    = (Return (Py.append body footer), (test_notifier 0 0, empty_world)) /\
    _create_message_blocks (mock_runtime post_refused) ERROR "job failed" None None
      (Some (CodeStr "Traceback")) (test_notifier 0 0, empty_world)
    = (Return (Py.append (Py.append body
                            (section_text (mrkdwn ("```" ++ "Traceback" ++ "```"))))
                 footer), (test_notifier 0 0, empty_world)).
Proof.
  apply (raw_string_code_block (mock_runtime post_refused) ERROR "job failed" None None
           "Traceback" "Expecting value: line 1 column 1 (char 0)").
  - discriminate.
  - reflexivity.
Defined.

(** ** Progress calls *)

(** X19.  When the gate does not fire, for a quiet call as for a zero
    total, [send_progress_notification] returns without any effect: the
    object and the world are as before, for a failed unit too. *)
Theorem quiet_progress_call_has_no_effect (rt : Runtime) (success : bool) (st : state) :
  fst (gate_call st) = Quiet ->
  send_progress_notification rt success st = (Return tt, st).
Proof.
  intros Hquiet. rewrite send_progress_notification_unfold.
  destruct st as [s w].
  destruct (gate_call_cases s w)
    as [(t & pct & Hrun & _) | [Hrun | (msg & _ & Hrun)]];
    rewrite Hrun in *; cbn [fst] in Hquiet; try discriminate.
  reflexivity.
Qed.

Lemma quiet_progress_call_has_no_effect_witness :
  send_progress_notification (mock_runtime post_refused) false
    (test_notifier 100 19, empty_world)
  = (Return tt, (test_notifier 100 19, empty_world)).
Proof.
  apply (quiet_progress_call_has_no_effect (mock_runtime post_refused) false
           (test_notifier 100 19, empty_world)).
  vm_compute. reflexivity.
Defined.

(** The ways the part below the gate can end, the percentage being
    computable as it is after the gate.  It raises before anything is sent:
    [TypeError] when [start_time] carries a time zone, which the naive
    [datetime.now()] cannot be subtracted from, [OverflowError] while the
    figures are computed, or [ValueError] when a counter has more decimal
    digits than the interpreter converts to text.  Or it calls [send_info]
    once, with the four fields of the summary. *)
Lemma progress_summary_strong (rt : Runtime) (success : bool) (s : SlackNotifier)
    (w : World) (pct : PyFloat.float) :
  current_pct s = Return pct ->
  let s1 := if success then s else set_error_files (error_files s + 1) s in
  (exists e,
      progress_summary rt success (s, w) = (Raise e, (s1, w)) /\
      match e with
      | OverflowError _ => True
      | TypeError _ => exists us offset, start_time s = Aware us offset
      | ValueError _ =>
          Py.int_max_str_digits < Py.decimal_digits (processed_files s) \/
          Py.int_max_str_digits < Py.decimal_digits (total_files s) \/
          Py.int_max_str_digits < Py.decimal_digits (error_files s1)
      | _ => False
      end)
  \/ (exists rate elapsed_time,
         progress_summary rt success (s, w)
         = (Return tt,
            snd (send_info rt
                   ("Processing Progress: " ++ format_float rt 1 pct ++ "%")
                   None
                   (Some [("Files Processed",
                           Text (Py.str (processed_files s1) ++ " / "
                                 ++ Py.str (total_files s1)));
                          ("Error Files", Text (Py.str (error_files s1)));
                          ("Processing Rate",
                           Text (format_float rt 1 rate ++ " files/hour"));
                          ("Elapsed Time",
                           Text (format_float rt 2 elapsed_time ++ " hours"))])
                   None (s1, w)))).
Proof.
  intros Hpct s1.
  assert (Hpct1 : current_pct s1 = Return pct)
    by (rewrite <- Hpct; subst s1; destruct success; reflexivity).
  assert (Hstart : start_time s1 = start_time s)
    by (subst s1; destruct success; reflexivity).
  assert (Hprocessed : processed_files s1 = processed_files s)
    by (subst s1; destruct success; reflexivity).
  assert (Htotal : total_files s1 = total_files s)
    by (subst s1; destruct success; reflexivity).
  remember (progress_summary rt success (s, w)) as r eqn:Hr.
  unfold progress_summary in Hr.
  assert (Hfirst : (if negb success
                    then update_self (fun s0 => set_error_files (error_files s0 + 1) s0)
                    else ret tt) (s, w) = (Return tt, (s1, w)))
    by (subst s1; destruct success; reflexivity).
  unfold bind at 1 in Hr. rewrite Hfirst in Hr.
  unfold bind at 1 in Hr. unfold get_self at 1 in Hr. cbn [fst snd] in Hr.
  unfold bind at 1 in Hr. unfold get_world at 1 in Hr. cbn [fst snd] in Hr.
  unfold bind at 1 in Hr.
  destruct (start_time s1) as [started | us offset] eqn:Hstarted.
  2:{ left. eexists. split; [exact Hr |]. cbn. exists us, offset. congruence. }
  unfold ret at 1 in Hr.
  unfold bind at 1 in Hr. unfold lift at 1 in Hr.
  destruct (PyFloat.truediv_int (now w - started) 1000000)
    as [seconds | e] eqn:Hseconds.
  2:{ left. apply truediv_int_raises in Hseconds; [| lia].
      destruct Hseconds as [msg ->]. eexists. split; [exact Hr | exact I]. }
  unfold bind at 1 in Hr. unfold lift at 1 in Hr.
  cbn [PyFloat.div PyFloat.f3600] in Hr.
  set (elapsed_time := SFdiv _ _ seconds _) in Hr.
  unfold bind at 1 in Hr.
  assert (Hrate : (exists msg,
                      (if PyFloat.gt_int elapsed_time 0
                       then processed <- lift (PyFloat.of_int (processed_files s1)) ;;
                            lift (PyFloat.div processed elapsed_time)
                       else ret (S754_zero false)) (s1, w)
                      = (Raise (OverflowError msg), (s1, w)))
                  \/ (exists rate,
                         (if PyFloat.gt_int elapsed_time 0
                          then processed <- lift (PyFloat.of_int (processed_files s1)) ;;
                               lift (PyFloat.div processed elapsed_time)
                          else ret (S754_zero false)) (s1, w)
                         = (Return rate, (s1, w)))).
  { destruct (PyFloat.gt_int elapsed_time 0) eqn:Hgt; [| right; eexists; reflexivity].
    unfold bind, lift, PyFloat.of_int.
    destruct (binary_normalize _ _ _ _ _) as [sg | sg | | sg m e];
      try (left; eexists; reflexivity);
      (unfold PyFloat.div;
       destruct elapsed_time as [sg' | sg' | | sg' m' e']; try discriminate;
       right; eexists; reflexivity). }
  destruct Hrate as [[msg Hrate] | [rate Hrate]]; rewrite Hrate in Hr;
    [left; eexists; split; [exact Hr | exact I] |].
  unfold bind at 1 in Hr. unfold lift at 1 in Hr. rewrite Hpct1 in Hr.
  unfold bind at 1 in Hr. unfold lift at 1 in Hr. unfold Py.str_int at 1 in Hr.
  destruct (Py.int_max_str_digits <? Py.decimal_digits (processed_files s1)) eqn:Hp.
  { left. eexists. split; [exact Hr |]. cbn. left.
    rewrite <- Hprocessed. now apply Z.ltb_lt. }
  unfold bind at 1 in Hr. unfold lift at 1 in Hr. unfold Py.str_int at 1 in Hr.
  destruct (Py.int_max_str_digits <? Py.decimal_digits (total_files s1)) eqn:Ht.
  { left. eexists. split; [exact Hr |]. cbn. right. left.
    rewrite <- Htotal. now apply Z.ltb_lt. }
  unfold bind at 1 in Hr. unfold lift at 1 in Hr. unfold Py.str_int at 1 in Hr.
  destruct (Py.int_max_str_digits <? Py.decimal_digits (error_files s1)) eqn:He.
  { left. eexists. split; [exact Hr |]. cbn. right. right. now apply Z.ltb_lt. }
  right. unfold bind at 1 in Hr. exists rate, elapsed_time.
  match type of Hr with
  | context [send_info rt ?m None (Some ?f) None (s1, w)] =>
      destruct (send_notification_result rt INFO m None (Some f) None (s1, w))
        as [sent Hsent];
      unfold send_info in *;
      destruct (send_notification rt INFO m None (Some f) None (s1, w)) as [r' st2]
  end.
  cbn [fst] in Hsent. subst r' r. reflexivity.
Qed.

Lemma progress_summary_cases (rt : Runtime) (success : bool) (s : SlackNotifier)
    (w : World) (pct : PyFloat.float) :
  current_pct s = Return pct ->
  let s1 := if success then s else set_error_files (error_files s + 1) s in
  (exists e,
      progress_summary rt success (s, w) = (Raise e, (s1, w)))
  \/ (exists message fields,
         List.length fields = 4%nat /\
         progress_summary rt success (s, w)
         = (Return tt, snd (send_info rt message None (Some fields) None (s1, w)))).
Proof.
  intros Hpct s1.
  destruct (progress_summary_strong rt success s w pct Hpct)
    as [(e & Hraise & _) | (rate & elapsed_time & Hsend)].
  - left. now exists e.
  - right. eexists. eexists. split; [| exact Hsend]. reflexivity.
Qed.



(** The digit limit is reached: with counters of 4301 digits and a clock
    that has not advanced, the call raises [ValueError] when it prints
    them. *)
Example progress_call_digit_limit :
  fst (send_progress_notification (mock_runtime post_refused) true
         (long_counter_notifier, empty_world))
  = Raise (ValueError "Exceeds the limit (4300 digits) for integer string conversion; use sys.set_int_max_str_digits() to increase the limit").
Proof. vm_compute. reflexivity. Qed.

Lemma send_progress_notification_requests (rt : Runtime) (success : bool)
    (s : SlackNotifier) (w : World) :
  let w' := snd (snd (send_progress_notification rt success (s, w))) in
  (posted w' = posted w \/
   exists blocks, posted w' = Py.append (posted w) (webhook_url s, blocks)) /\
  match fst (gate_call (s, w)) with
  | Fired _ => True
  | _ => posted w' = posted w
  end.
Proof.
  intros w'. subst w'. rewrite send_progress_notification_unfold.
  destruct (gate_call_cases s w)
    as [(t & pct & Hrun & _ & _ & _ & Hpct & _) | [Hrun | (msg & _ & Hrun)]];
    rewrite Hrun; cbn [fst snd]; try (split; [now left | reflexivity]).
  split; [| exact I].
  assert (Hpct' : current_pct (set_last_notification_pct t s) = Return pct)
    by (rewrite <- Hpct; reflexivity).
  destruct (progress_summary_cases rt success _ w pct Hpct')
    as [(msg & ->) | (m & f & _ & ->)]; cbn [fst snd]; [now left |].
  match goal with
  | |- context [send_info rt m None (Some f) None (?s1, w)] =>
      pose proof (send_notification_requests rt INFO m None (Some f) None s1 w) as Hreq;
      assert (Hurl : webhook_url s1 = webhook_url s) by (destruct success; reflexivity)
  end.
  cbv zeta in Hreq. rewrite Hurl in Hreq. exact Hreq.
Qed.

(** X21.  One call of [send_progress_notification] hands at most one
    request to the transport, to the configured [webhook_url], and none at
    all when the gate does not fire. *)
Theorem progress_call_at_most_one_request (rt : Runtime) (success : bool)
    (s : SlackNotifier) (w : World) :
  let w' := snd (snd (send_progress_notification rt success (s, w))) in
  (posted w' = posted w \/
   exists blocks, posted w' = Py.append (posted w) (webhook_url s, blocks)) /\
  match fst (gate_call (s, w)) with
  | Fired _ => True
  | _ => posted w' = posted w
  end.
Proof. apply send_progress_notification_requests. Qed.


(** ** More on construction *)

Lemma split_not_empty (sep : ascii) (text : string) : Py.split sep text <> [].
Proof.
  destruct text as [| c rest]; cbn; [discriminate |].
  destruct (Ascii.eqb c sep); [discriminate |].
  destruct (Py.split sep rest); discriminate.
Qed.

Lemma comprehension_length {A B : Type} (f : A -> result B) (l : list A) (ys : list B) :
  Py.comprehension f l = Return ys -> List.length ys = List.length l.
Proof.
  revert ys. induction l as [| x l IH]; intros ys; cbn.
  - intros H. inversion H. reflexivity.
  - destruct (f x) as [y | e]; [| discriminate].
    destruct (Py.comprehension f l) as [ys' | e]; [| discriminate].
    intros H. inversion H. cbn. now rewrite (IH ys').
Qed.

Lemma comprehension_raises {A B : Type} (f : A -> result B) (l : list A) (x : A)
    (e : exn) :
  In x l -> f x = Raise e -> exists e', Py.comprehension f l = Raise e'.
Proof.
  induction l as [| y l IH]; intros Hin Hx; [destruct Hin |].
  cbn. destruct Hin as [-> | Hin].
  - rewrite Hx. eauto.
  - destruct (f y) as [b | e0]; [| eauto].
    destruct (IH Hin Hx) as [e' ->]. eauto.
Qed.

(** X22.  A notifier that the constructor returns holds one threshold per
    comma-separated piece of the setting, so at least one: the list is
    never empty and nothing is dropped. *)
Theorem init_threshold_count (c : Config) (w w' : World) (s : SlackNotifier) :
  __init__ c w = (Return s, w') ->
  List.length (notification_percentages s)
  = List.length (Py.split "," (getenv_default (environ c)
                                 "NOTIFICATION_PERCENTAGES" "20,100")) /\
  notification_percentages s <> [].
Proof.
  unfold __init__, add_notification_handler.
  destruct (open_log c (resolved_log_path c)) as [[] | e0]; [| discriminate].
  destruct (Py.comprehension _ _) as [pcts | e] eqn:Hparse; [| discriminate].
  assert (Hlen : List.length (Py.sorted pcts)
                 = List.length (Py.split "," (getenv_default (environ c)
                                                "NOTIFICATION_PERCENTAGES" "20,100"))).
  { rewrite <- (Permutation_length (sorted_perm pcts)).
    now apply comprehension_length in Hparse. }
  assert (Hne : Py.sorted pcts <> []).
  { intros Hnil. rewrite Hnil in Hlen. cbn in Hlen.
    destruct (Py.split "," _) eqn:Hsplit; [| discriminate].
    now apply split_not_empty in Hsplit. }
  destruct (negb _); intros H; inversion H; subst; cbn; split; assumption.
Qed.

Lemma init_threshold_count_witness :
  List.length (notification_percentages (test_notifier 100 0))
  = List.length (Py.split ","
                   (getenv_default (environ (test_config 100))
                      "NOTIFICATION_PERCENTAGES" "20,100")) /\
  notification_percentages (test_notifier 100 0) <> [].
Proof.
  apply (init_threshold_count (test_config 100) empty_world one_handler_world).
  reflexivity.
Defined.

(** X23.  Once the log file has opened, one piece of the setting that
    [int] rejects is enough for the constructor to raise [ValueError],
    whatever the other pieces are: no notifier is returned and no record is
    written, and the handler created for the log file stays attached to the
    notification logger. *)
Theorem init_rejects_bad_piece (c : Config) (w : World) (piece : string) (e : exn) :
  open_log c (resolved_log_path c) = Return tt ->
  In piece (Py.split "," (getenv_default (environ c)
                            "NOTIFICATION_PERCENTAGES" "20,100")) ->
  Py.int (int_non_ascii c) piece = Raise e ->
  exists msg,
    __init__ c w
    = (Raise (ValueError msg),
       mkWorld (now w)
         (Py.append (notification_log w) (Attached (resolved_log_path c)))
         (root_log w) (posted w)).
Proof.
  intros Hopen Hin Hbad. unfold __init__, add_notification_handler.
  rewrite Hopen.
  destruct (comprehension_raises (Py.int (int_non_ascii c)) _ piece e Hin Hbad)
    as [e' Hparse].
  rewrite Hparse.
  destruct (comprehension_int_raises _ _ _ Hparse) as [msg ->].
  now exists msg.
Qed.

Lemma init_rejects_bad_piece_witness :
  exists msg,
    __init__ (mkConfig None None 100 0 None [("NOTIFICATION_PERCENTAGES", "20,,100")]
                "localhost" opens_any ascii_only) empty_world
    = (Raise (ValueError msg), mkWorld 0 [Attached "notifications.log"] [] []).
Proof.
  apply (init_rejects_bad_piece
           (mkConfig None None 100 0 None [("NOTIFICATION_PERCENTAGES", "20,,100")]
              "localhost" opens_any ascii_only) empty_world ""
           (ValueError "invalid literal for int() with base 10: ''")).
  - reflexivity.
  - cbn. auto.
  - reflexivity.
Defined.


(** ** Whole runs of progress calls *)

Lemma send_progress_notification_frame (rt : Runtime) (success : bool) (st : state) :
  frame (fst st) (fst (snd (send_progress_notification rt success st))).
Proof.
  apply (preserves_send_progress_notification rt frame success).
  - intros v s. unfold frame. repeat split.
  - intros v s. unfold frame. repeat split.
Qed.

Lemma fires_above_fired (t : Z) (events : list gate_event) :
  Forall (fires_above t) events -> Forall (Z.lt t) (fired events).
Proof.
  induction 1 as [| ev events Hev _ IH]; cbn [fired]; [constructor |].
  unfold fires_above in Hev.
  destruct (outcome ev); try exact IH. now constructor.
Qed.

Lemma drive_progress_fired_sorted (rt : Runtime) (steps : list (Z * bool)) (st : state) :
  StronglySorted Z.lt (fired (drive_progress rt st steps)).
Proof.
  revert st. induction steps as [| [p success] rest IH]; intros [s w].
  - constructor.
  - cbn [drive_progress fst snd fired outcome].
    set (st0 := (set_processed_files p s, w)).
    destruct (gate_call st0) as [[t | | e] st1] eqn:Hcall; cbn [fst]; try apply IH.
    constructor; [apply IH |].
    apply fires_above_fired.
    replace t with (last_notification_pct
                      (fst (snd (send_progress_notification rt success st0)))).
    + apply drive_progress_fires_above.
    + rewrite send_progress_notification_last, Hcall.
      now apply gate_call_fired in Hcall.
Qed.

Lemma drive_progress_fired_incl (rt : Runtime) (l : list Z) (steps : list (Z * bool))
    (st : state) :
  notification_percentages (fst st) = l ->
  incl (fired (drive_progress rt st steps)) l.
Proof.
  revert st. induction steps as [| [p success] rest IH]; intros [s w] Hpcts.
  - intros t [].
  - cbn [drive_progress fst snd fired outcome]. cbn [fst] in Hpcts.
    set (st0 := (set_processed_files p s, w)).
    assert (Hrest : incl (fired (drive_progress rt
                                   (snd (send_progress_notification rt success st0)) rest)) l).
    { apply IH.
      destruct (send_progress_notification_frame rt success st0) as (Hf & _).
      rewrite Hf. exact Hpcts. }
    destruct (gate_call_cases (set_processed_files p s) w)
      as [(t & pct & Hrun & Hin & _) | [Hrun | (msg & _ & Hrun)]];
      subst st0; rewrite Hrun; cbn [fst]; try exact Hrest.
    intros t' [<- | Hin']; [| now apply Hrest].
    cbn in Hin. now rewrite <- Hpcts.
Qed.

Lemma run_progress_requests (rt : Runtime) (steps : list (Z * bool)) (st : state) :
  (List.length (posted (snd (run_progress rt st steps)))
   <= List.length (posted (snd st))
      + List.length (fired (drive_progress rt st steps)))%nat.
Proof.
  revert st. induction steps as [| [p success] rest IH]; intros [s w].
  - cbn. lia.
  - cbn [run_progress drive_progress fst snd fired outcome].
    set (st0 := (set_processed_files p s, w)).
    specialize (IH (snd (send_progress_notification rt success st0))).
    pose proof (send_progress_notification_requests rt success
                  (set_processed_files p s) w) as [Hstep Hquiet].
    fold st0 in Hstep, Hquiet.
    destruct (fst (gate_call st0)) as [t | | e]; cbn [List.length].
    + destruct Hstep as [Hsame | [blocks Hone]].
      * rewrite Hsame in IH. cbn [snd] in IH. lia.
      * rewrite Hone in IH. unfold Py.append in IH.
        rewrite length_app in IH. cbn in IH. lia.
    + rewrite Hquiet in IH. exact IH.
    + rewrite Hquiet in IH. exact IH.
Qed.

(** X24.  Over a whole run of progress calls, whatever the progress
    values, the failures and the transport, the notifier hands the
    transport at most as many requests as it holds thresholds. *)
Theorem progress_requests_bounded (rt : Runtime) (s : SlackNotifier) (w : World)
    (steps : list (Z * bool)) :
  (List.length (posted (snd (run_progress rt (s, w) steps)))
   <= List.length (posted w) + List.length (notification_percentages s))%nat.
Proof.
  pose proof (run_progress_requests rt steps (s, w)) as Hrun. cbn [snd] in Hrun.
  assert (Hfired : (List.length (fired (drive_progress rt (s, w) steps))
                    <= List.length (notification_percentages s))%nat).
  { apply NoDup_incl_length.
    - apply strongly_sorted_lt_nodup, drive_progress_fired_sorted.
    - now apply drive_progress_fired_incl. }
  lia.
Qed.

Lemma run_progress_logging (rt : Runtime) (steps : list (Z * bool)) (st : state) :
  use_logging (fst st) = true ->
  posted (snd (run_progress rt st steps)) = posted (snd st) /\
  root_log (snd (run_progress rt st steps)) = root_log (snd st).
Proof.
  revert st. induction steps as [| [p success] rest IH]; intros [s w] Hmode.
  - split; reflexivity.
  - cbn [run_progress fst snd]. cbn [fst] in Hmode.
    set (st0 := (set_processed_files p s, w)).
    assert (Hmode' : use_logging (fst (snd (send_progress_notification rt success st0)))
                     = true).
    { destruct (send_progress_notification_frame rt success st0) as (_ & _ & _ & _ & Hf & _).
      rewrite Hf. exact Hmode. }
    destruct (IH _ Hmode') as [Hposted Hroot]. rewrite Hposted, Hroot. clear IH.
    subst st0. rewrite send_progress_notification_unfold.
    destruct (gate_call_cases (set_processed_files p s) w)
      as [(t & pct & Hrun & _ & _ & _ & Hpct & _) | [Hrun | (msg & _ & Hrun)]];
      rewrite Hrun; cbn [fst snd]; try (split; reflexivity).
    assert (Hpct' : current_pct (set_last_notification_pct t (set_processed_files p s))
                    = Return pct) by (rewrite <- Hpct; reflexivity).
    destruct (progress_summary_cases rt success _ w pct Hpct')
      as [(msg & ->) | (m & f & _ & ->)]; cbn [fst snd]; [split; reflexivity |].
    unfold send_info.
    match goal with
    | |- context [send_notification rt INFO m None (Some f) None (?s1, w)] =>
        assert (Hs1 : use_logging s1 = true) by (destruct success; exact Hmode);
        pose proof (logging_mode_world rt s1 w INFO m None (Some f) None Hs1)
          as (Hp & Hr & _)
    end.
    split; assumption.
Qed.

(** X25.  A notifier in logging-only mode never reaches the transport nor
    the root logger, over any run of progress calls. *)
Theorem logging_run_stays_local (rt : Runtime) (s : SlackNotifier) (w : World)
    (steps : list (Z * bool)) :
  use_logging s = true ->
  posted (snd (run_progress rt (s, w) steps)) = posted w /\
  root_log (snd (run_progress rt (s, w) steps)) = root_log w.
Proof.
  intros Hmode. apply (run_progress_logging rt steps (s, w)). exact Hmode.
Qed.

Lemma logging_run_stays_local_witness :
  posted (snd (run_progress (mock_runtime post_refused)
                 (logging_notifier 100 0, empty_world)
                 [(10, true); (20, false); (100, true)])) = [] /\
  root_log (snd (run_progress (mock_runtime post_refused)
                   (logging_notifier 100 0, empty_world)
                   [(10, true); (20, false); (100, true)])) = [].
Proof.
  apply (logging_run_stays_local (mock_runtime post_refused) (logging_notifier 100 0)
           empty_world [(10, true); (20, false); (100, true)]).
  reflexivity.
Defined.

(** ** Reading back a written setting *)

Lemma digits_of_uint_acc (d : Decimal.uint) (acc : positive) :
  Py.digits (Z.pos acc) false (list_ascii_of_string (NilEmpty.string_of_uint d))
  = Some (Z.pos (Pos.of_uint_acc d acc)).
Proof.
  revert acc. induction d; intros acc;
    cbn [NilEmpty.string_of_uint list_ascii_of_string Py.digits Pos.of_uint_acc];
    try reflexivity;
    match goal with
    | |- (if Py.is_digit ?c then _ else _) = _ =>
        change (Py.is_digit c) with true; cbv iota;
        let v := eval vm_compute in (Py.digit_value c) in
        change (Py.digit_value c) with v
    end;
    rewrite <- IHd; f_equal; lia.
Qed.

Lemma digits_of_uint (d : Decimal.uint) :
  Py.digits 0 false (list_ascii_of_string (NilEmpty.string_of_uint d))
  = Some (Z.of_N (Pos.of_uint d)).
Proof.
  induction d;
    cbn [NilEmpty.string_of_uint list_ascii_of_string Py.digits Pos.of_uint];
    try reflexivity;
    match goal with
    | |- (if Py.is_digit ?c then _ else _) = _ =>
        change (Py.is_digit c) with true; cbv iota;
        let v := eval vm_compute in (Py.digit_value c) in
        change (Py.digit_value c) with v
    end;
    cbn [Z.mul Z.add Z.of_N]; try exact IHd; apply digits_of_uint_acc.
Qed.

Lemma uint_chars_digits (d : Decimal.uint) :
  Forall (fun c => Py.is_digit c = true)
    (list_ascii_of_string (NilEmpty.string_of_uint d)).
Proof.
  induction d; cbn [NilEmpty.string_of_uint list_ascii_of_string];
    constructor; (reflexivity || assumption).
Qed.

Lemma digit_not_space (c : ascii) : Py.is_digit c = true -> Py.is_space c = false.
Proof.
  unfold Py.is_digit, Py.is_space. intros H.
  apply andb_true_iff in H. destruct H as [Hlo Hhi].
  apply Nat.leb_le in Hlo. apply Nat.leb_le in Hhi.
  apply orb_false_iff. split.
  - apply andb_false_iff. right. apply Nat.leb_gt. lia.
  - apply Nat.eqb_neq. lia.
Qed.

Lemma digit_not_comma (c : ascii) : Py.is_digit c = true -> Ascii.eqb c "," = false.
Proof.
  intros H. destruct (Ascii.eqb_spec c ","); [subst c; discriminate | reflexivity].
Qed.

Lemma lstrip_no_space (l : list ascii) :
  Forall (fun c => Py.is_space c = false) l -> Py.lstrip l = l.
Proof. destruct 1 as [| c l Hc _]; cbn; [reflexivity | now rewrite Hc]. Qed.

Lemma strip_no_space (l : list ascii) :
  Forall (fun c => Py.is_space c = false) l -> Py.strip l = l.
Proof.
  intros Hall. unfold Py.strip.
  rewrite (lstrip_no_space l Hall), lstrip_no_space, rev_involutive; [reflexivity |].
  apply Forall_rev. exact Hall.
Qed.

Lemma uint_chars_no_space (d : Decimal.uint) :
  Forall (fun c => Py.is_space c = false)
    (list_ascii_of_string (NilEmpty.string_of_uint d)).
Proof.
  eapply Forall_impl; [| apply uint_chars_digits]. apply digit_not_space.
Qed.

Lemma digits_are_ascii (l : list ascii) :
  Forall (fun c => Py.is_digit c = true) l ->
  forallb (fun c => (nat_of_ascii c <? 128)%nat) l = true.
Proof.
  induction 1 as [| c l Hc _ IH]; cbn [forallb]; [reflexivity |].
  rewrite IH, andb_true_r.
  unfold Py.is_digit in Hc. apply andb_true_iff in Hc. destruct Hc as [_ Hhi].
  apply Nat.leb_le in Hhi. apply Nat.ltb_lt. lia.
Qed.

Lemma literal_run_digits (l : list ascii) :
  Forall (fun c => Py.is_digit c = true) l -> Py.literal_run l = (l, []).
Proof.
  induction 1 as [| c l Hc _ IH]; cbn [Py.literal_run]; [reflexivity |].
  now rewrite Hc, IH.
Qed.

Lemma count_digits_all (l : list ascii) :
  Forall (fun c => Py.is_digit c = true) l ->
  Py.count_digits l = Z.of_nat (List.length l).
Proof.
  intros Hall. unfold Py.count_digits. f_equal. f_equal.
  induction Hall as [| c l Hc _ IH]; cbn [filter]; [reflexivity |].
  now rewrite Hc, IH.
Qed.

Lemma length_list_ascii (text : string) :
  List.length (list_ascii_of_string text) = String.length text.
Proof. induction text as [| c text IH]; cbn; [reflexivity | now rewrite IH]. Qed.

(** [int] on the digits of [d], and on the same after a minus sign, when
    they are no more than the limit. *)
Lemma int_of_uint (non_ascii : string -> option Z) (d : Decimal.uint) :
  d <> Decimal.Nil ->
  Z.of_nat (String.length (NilEmpty.string_of_uint d)) <= Py.int_max_str_digits ->
  Py.int non_ascii (NilEmpty.string_of_uint d) = Return (Z.of_N (Pos.of_uint d)) /\
  Py.int non_ascii (String "-" (NilEmpty.string_of_uint d))
  = Return (- Z.of_N (Pos.of_uint d)).
Proof.
  intros Hd Hlimit.
  assert (Hdigits : Py.digits 0 true (list_ascii_of_string (NilEmpty.string_of_uint d))
                    = Some (Z.of_N (Pos.of_uint d))).
  { rewrite <- digits_of_uint. destruct d; try contradiction; reflexivity. }
  pose proof (uint_chars_digits d) as Hall.
  assert (Hcount : (Py.int_max_str_digits
                    <? Py.count_digits
                         (list_ascii_of_string (NilEmpty.string_of_uint d)))
                   = false).
  { rewrite (count_digits_all _ Hall), length_list_ascii. now apply Z.ltb_ge. }
  split; unfold Py.int, Py.is_ascii.
  - rewrite (digits_are_ascii _ Hall).
    rewrite strip_no_space by apply uint_chars_no_space.
    destruct d; try contradiction;
      cbn [NilEmpty.string_of_uint list_ascii_of_string] in *;
      rewrite (literal_run_digits _ Hall), Hdigits, Hcount; f_equal; lia.
  - cbn [list_ascii_of_string forallb].
    rewrite (digits_are_ascii _ Hall).
    change ((nat_of_ascii "-" <? 128)%nat && true) with true. cbv iota.
    rewrite strip_no_space
      by (constructor; [reflexivity | apply uint_chars_no_space]).
    rewrite (literal_run_digits _ Hall), Hdigits, Hcount. f_equal; lia.
Qed.

(** [int(str(n))] is [n], for an integer of no more digits than the
    limit. *)
Lemma int_str (non_ascii : string -> option Z) (n : Z) :
  Py.decimal_digits n <= Py.int_max_str_digits ->
  Py.int non_ascii (Py.str n) = Return n.
Proof.
  unfold Py.decimal_digits, Py.str.
  destruct n as [| p | p]; [reflexivity | |];
    cbn [Z.abs Z.to_int NilZero.string_of_int]; unfold NilZero.string_of_uint;
    pose proof (DecimalPos.Unsigned.to_uint_nonnil p) as Hnil;
    pose proof (DecimalPos.Unsigned.of_to p) as Hof;
    intros Hlimit;
    assert (Hlimit' : Z.of_nat (String.length (NilEmpty.string_of_uint (Pos.to_uint p)))
                      <= Py.int_max_str_digits)
      by (destruct (Pos.to_uint p); try contradiction; exact Hlimit);
    destruct (int_of_uint non_ascii (Pos.to_uint p) Hnil Hlimit') as [Hpos Hneg];
    destruct (Pos.to_uint p) eqn:Hd; try contradiction;
    rewrite ?Hpos, ?Hneg, Hof; reflexivity.
Qed.

(** [str(n)] holds no comma. *)
Lemma str_no_comma (n : Z) :
  Forall (fun c => Ascii.eqb c "," = false) (list_ascii_of_string (Py.str n)).
Proof.
  assert (Huint : forall d, Forall (fun c => Ascii.eqb c "," = false)
                              (list_ascii_of_string (NilZero.string_of_uint d))).
  { intros d. unfold NilZero.string_of_uint.
    destruct d; try (repeat constructor; fail);
      (eapply Forall_impl; [| apply uint_chars_digits]; apply digit_not_comma). }
  unfold Py.str. destruct (Z.to_int n) as [d | d]; cbn [NilZero.string_of_int].
  - apply Huint.
  - cbn [list_ascii_of_string]. constructor; [reflexivity | apply Huint].
Qed.

Lemma split_no_sep (sep : ascii) (piece : string) :
  Forall (fun c => Ascii.eqb c sep = false) (list_ascii_of_string piece) ->
  Py.split sep piece = [piece].
Proof.
  induction piece as [| c piece IH]; cbn; [reflexivity |].
  intros H. inversion H as [| ? ? Hc Hrest]; subst.
  rewrite Hc, (IH Hrest). reflexivity.
Qed.

Lemma split_app_sep (sep : ascii) (piece rest : string) :
  Forall (fun c => Ascii.eqb c sep = false) (list_ascii_of_string piece) ->
  Py.split sep (piece ++ String sep rest) = piece :: Py.split sep rest.
Proof.
  induction piece as [| c piece IH]; cbn.
  - intros _. now rewrite Ascii.eqb_refl.
  - intros H. inversion H as [| ? ? Hc Hrest]; subst.
    rewrite Hc, (IH Hrest). reflexivity.
Qed.

(** [",".join(pieces).split(",")] gives the pieces back when none holds a
    comma and there is at least one. *)
Lemma split_join (pieces : list string) :
  pieces <> [] ->
  Forall (fun piece => Forall (fun c => Ascii.eqb c "," = false)
                         (list_ascii_of_string piece)) pieces ->
  Py.split "," (Py.join "," pieces) = pieces.
Proof.
  induction pieces as [| piece rest IH]; [contradiction |].
  intros _ Hall. inversion Hall as [| ? ? Hpiece Hrest]; subst.
  destruct rest as [| next rest].
  - cbn [Py.join]. now apply split_no_sep.
  - change (Py.join "," (piece :: next :: rest))
      with (piece ++ String "," (Py.join "," (next :: rest)))%string.
    rewrite split_app_sep by assumption.
    rewrite IH; [reflexivity | discriminate | assumption].
Qed.

Lemma comprehension_int_str (non_ascii : string -> option Z) (l : list Z) :
  Forall (fun n => Py.decimal_digits n <= Py.int_max_str_digits) l ->
  Py.comprehension (Py.int non_ascii) (map Py.str l) = Return l.
Proof.
  induction 1 as [| n l Hn _ IH]; cbn; [reflexivity |].
  now rewrite (int_str non_ascii n Hn), IH.
Qed.

(** X26.  A setting written as the decimal integers of a non-empty list,
    joined by commas, each of no more than 4300 digits, is read back in
    full once the log file has opened: the constructor returns, and the
    thresholds are those integers in ascending order, negative ones and
    repeated ones included. *)
Theorem init_reads_written_thresholds (c : Config) (w : World) (l : list Z) :
  open_log c (resolved_log_path c) = Return tt ->
  l <> [] ->
  Forall (fun n => Py.decimal_digits n <= Py.int_max_str_digits) l ->
  getenv (environ c) "NOTIFICATION_PERCENTAGES" = Some (Py.join "," (map Py.str l)) ->
  exists s w',
    __init__ c w = (Return s, w') /\ notification_percentages s = Py.sorted l.
Proof.
  intros Hopen Hl Hdigits Henv.
  unfold __init__, add_notification_handler, getenv_default.
  rewrite Hopen, Henv.
  rewrite split_join.
  - rewrite (comprehension_int_str _ l Hdigits).
    destruct (negb _); eexists; eexists; split; reflexivity.
  - destruct l; [contradiction | discriminate].
  - apply Forall_forall. intros piece Hin.
    apply in_map_iff in Hin. destruct Hin as (n & <- & _). apply str_no_comma.
Qed.

Lemma init_reads_written_thresholds_witness :
  exists s w',
    __init__ (mkConfig None None 100 0 None [("NOTIFICATION_PERCENTAGES", "50,-5,100,50")]
                "localhost" opens_any ascii_only) empty_world
    = (Return s, w') /\
    notification_percentages s = Py.sorted [50; -5; 100; 50].
Proof.
  apply (init_reads_written_thresholds
           (mkConfig None None 100 0 None [("NOTIFICATION_PERCENTAGES", "50,-5,100,50")]
              "localhost" opens_any ascii_only) empty_world [50; -5; 100; 50]).
  - reflexivity.
  - discriminate.
  - repeat constructor; vm_compute; discriminate.
  - reflexivity.
Defined.

(** ** What a progress notification holds *)

(** In remote mode a message whose blocks are built is posted once,
    whatever the transport answers. *)
Lemma remote_posts_built_blocks (rt : Runtime) (s : SlackNotifier) (w : World)
    level message title fields fields_code_block (blocks : list block) :
  use_logging s = false ->
  _create_message_blocks rt level message title fields fields_code_block (s, w)
  = (Return blocks, (s, w)) ->
  posted (snd (snd (send_notification rt level message title fields
                      fields_code_block (s, w))))
  = Py.append (posted w) (webhook_url s, blocks).
Proof.
  intros Hmode Hblocks.
  unfold send_notification, try_except.
  unfold bind at 1. unfold get_self at 1. cbn [fst snd].
  rewrite Hmode.
  unfold bind at 1. rewrite Hblocks.
  unfold _send_to_slack, bind, get_self, update_world, lift. cbn [fst snd].
  destruct (requests_post rt (webhook_url s) blocks) as [response | e].
  - destruct (raise_for_status response) as [[] | e];
      cbn [fst snd]; rewrite ?Hmode; reflexivity.
  - cbn [fst snd]. rewrite Hmode. reflexivity.
Qed.

(** X29.  In remote mode, a progress call on which the gate fires and
    which returns posts one request of exactly three blocks: the message
    section, with no header before it; one group of the four fields Files
    Processed, Error Files, Processing Rate and Elapsed Time, in this order,
    the first showing [processed / total] and the second the error count
    after this call; and the footer. *)
Theorem progress_notification_content (rt : Runtime) (success : bool)
    (s : SlackNotifier) (w : World) (t : Z) (st1 : state) :
  use_logging s = false ->
  gate_call (s, w) = (Fired t, st1) ->
  fst (send_progress_notification rt success (s, w)) = Return tt ->
  exists message rate elapsed footer,
    posted (snd (snd (send_progress_notification rt success (s, w))))
    = Py.append (posted w)
        (webhook_url s,
         [section_text (mrkdwn message);
          section_fields
            [mrkdwn ("*Files Processed:*" ++ nl ++ Py.str (processed_files s)
                     ++ " / " ++ Py.str (total_files s));
             mrkdwn ("*Error Files:*" ++ nl
                     ++ Py.str (error_files s + if success then 0 else 1));
             mrkdwn ("*Processing Rate:*" ++ nl ++ rate ++ " files/hour");
             mrkdwn ("*Elapsed Time:*" ++ nl ++ elapsed ++ " hours")];
          context [mrkdwn footer]]).
Proof.
  intros Hmode Hcall Hreturns.
  rewrite send_progress_notification_unfold in *.
  destruct (gate_call_cases s w)
    as [(t0 & pct & Hrun & _ & _ & _ & Hpct & _) | [Hrun | (msg & _ & Hrun)]];
    rewrite Hrun in Hcall; inversion Hcall; subst; clear Hcall.
  rewrite Hrun in *. clear Hrun.
  assert (Hpct' : current_pct (set_last_notification_pct t s) = Return pct)
    by (rewrite <- Hpct; reflexivity).
  destruct (progress_summary_strong rt success _ w pct Hpct')
    as [(e & Hraise & _) | (rate & elapsed & Hsend)].
  - rewrite Hraise in Hreturns. discriminate.
  - rewrite Hsend. cbn [snd]. unfold send_info.
    erewrite remote_posts_built_blocks;
      [| destruct success; exact Hmode | reflexivity].
    do 4 eexists. destruct success; cbn; rewrite ?Z.add_0_r; reflexivity.
Qed.

Lemma progress_notification_content_witness :
  exists message rate elapsed footer,
    posted (snd (snd (send_progress_notification (mock_runtime (post_status 200)) false
                        (test_notifier 100 20, empty_world))))
    = Py.append (posted empty_world)
        (webhook_url (test_notifier 100 20),
         [section_text (mrkdwn message);
          section_fields
            [mrkdwn ("*Files Processed:*" ++ nl ++ Py.str (processed_files (test_notifier 100 20))
                     ++ " / " ++ Py.str (total_files (test_notifier 100 20)));
             mrkdwn ("*Error Files:*" ++ nl
                     ++ Py.str (error_files (test_notifier 100 20) + if false then 0 else 1));
             mrkdwn ("*Processing Rate:*" ++ nl ++ rate ++ " files/hour");
             mrkdwn ("*Elapsed Time:*" ++ nl ++ elapsed ++ " hours")];
          context [mrkdwn footer]]).
Proof.
  apply (progress_notification_content (mock_runtime (post_status 200)) false
           (test_notifier 100 20) empty_world 20
           (set_last_notification_pct 20 (test_notifier 100 20), empty_world)).
  - reflexivity.
  - vm_compute. reflexivity.
  - vm_compute. reflexivity.
Defined.

(** X27.  The number of blocks of a message built with the code blocks as
    a dict or absent: one for a non-empty title, one for the message, one
    per started group of ten fields, one per code block, and one for the
    footer. *)
Theorem block_count (rt : Runtime) (level : NotificationLevel) (message : string)
    (title : option string) (fields : option (dict field_value))
    (fields_code_block : option code_block_arg) (st st' : state)
    (blocks : list block) :
  match fields_code_block with Some (CodeStr _) => False | _ => True end ->
  _create_message_blocks rt level message title fields fields_code_block st
  = (Return blocks, st') ->
  List.length blocks
  = ((if Py.truthy title then 1 else 0) + 1
     + (match fields with Some items => List.length items | None => 0 end + 9) / 10
     + match fields_code_block with Some (CodeDict d) => List.length d | _ => 0 end
     + 1)%nat.
Proof.
  intros Hdict. unfold _create_message_blocks.
  set (head := Py.append _ (section_text _)).
  assert (Hhead : List.length head = ((if Py.truthy title then 1 else 0) + 1)%nat).
  { subst head. unfold Py.append. rewrite length_app.
    destruct title as [t |]; [destruct (Py.truthy (Some t)) |]; reflexivity. }
  set (body := match fields with None | Some [] => head | Some _ => _ end).
  assert (Hbody : List.length body
                  = ((if Py.truthy title then 1 else 0) + 1
                     + (match fields with Some items => List.length items | None => 0 end
                        + 9) / 10)%nat).
  { subst body. destruct fields as [[| item items] |];
      try (rewrite Hhead; cbn; lia).
    unfold Py.extend. rewrite length_app, length_map, Hhead.
    destruct (field_groups_spec (formatted_fields (item :: items))) as (_ & Hlen & _).
    rewrite Hlen. unfold formatted_fields. rewrite length_map. reflexivity. }
  clearbody body. clear head Hhead.
  set (groups := ((_ + 9) / 10)%nat) in *. clearbody groups.
  destruct fields_code_block as [[[| item d] | text] |]; try contradiction;
    unfold bind, ret, get_self, get_world; cbn [fst snd];
    intros H; inversion H; subst; unfold Py.append, Py.extend, code_sections;
    rewrite ?length_app, ?length_map, Hbody; cbn [List.length map];
    rewrite ?length_map; destruct (Py.truthy title); lia.
Qed.

Lemma block_count_witness :
  List.length
    (snd (List.last
            (posted (snd (snd (send_warning (mock_runtime (post_status 200))
                                 "quota" (Some "Storage") (Some (numbered_fields 23))
                                 (Some (CodeDict [("df", "98%"); ("du", "1T")]))
                                 (test_notifier 0 0, empty_world)))))
            (None, [])))
  = 8%nat.
Proof.
  apply (block_count (mock_runtime (post_status 200)) WARNING "quota" (Some "Storage")
           (Some (numbered_fields 23)) (Some (CodeDict [("df", "98%"); ("du", "1T")]))
           (test_notifier 0 0, empty_world) (test_notifier 0 0, empty_world)).
  - exact I.
  - vm_compute. reflexivity.
Defined.

(** X28.  Over a whole run of progress calls, with failed units and any
    transport, the thresholds on which the gate fires are thresholds of the
    list, each at most once, in strictly ascending order. *)
Theorem progress_run_fires_once_ascending (rt : Runtime) (s : SlackNotifier) (w : World)
    (steps : list (Z * bool)) :
  NoDup (fired (drive_progress rt (s, w) steps)) /\
  StronglySorted Z.lt (fired (drive_progress rt (s, w) steps)) /\
  incl (fired (drive_progress rt (s, w) steps)) (notification_percentages s).
Proof.
  pose proof (drive_progress_fired_sorted rt steps (s, w)) as Hsorted.
  repeat apply conj.
  - now apply strongly_sorted_lt_nodup.
  - exact Hsorted.
  - now apply drive_progress_fired_incl.
Qed.
